(** * The FreeType label control of Plymouth (label-freetype/plugin.c)

    A shallow embedding of the label plugin: the measuring functions
    [width_of_line] and [size_control], the blitter [draw_bitmap], the
    drawing routine [draw_control] and the setters of the control, followed
    by the properties of the design document that they do or do not have.

    Conventions of the embedding.
    - C integers are [Z] values; every conversion between integer types is
      written out with [to_s32], [to_u32], [to_s64], [to_u64] and [to_u8]
      (LP64: [int]/[FT_Int] has 32 bits, [long]/[FT_Pos] 64).
    - [float] is IEEE binary32, computed with [SpecFloat] at precision 24.
    - A [char *] is an [option string]: [None] is the NULL pointer and the
      [string] holds the bytes before the terminating NUL.
    - Loops that the source does not bound take a budget of iterations; a
      run that uses the whole budget is [Spinning].  Dereferencing NULL is
      [Undefined]. *)

From Stdlib Require Import ZArith List String Ascii Bool Lia.
From Stdlib Require Import Floats.SpecFloat.
Import ListNotations.

Local Open Scope Z_scope.

(** ** Machine integers *)

Module CInt.

Definition to_u8 (z : Z) : Z := z mod 2 ^ 8.
Definition to_u32 (z : Z) : Z := z mod 2 ^ 32.
Definition to_u64 (z : Z) : Z := z mod 2 ^ 64.
Definition to_s32 (z : Z) : Z := (z + 2 ^ 31) mod 2 ^ 32 - 2 ^ 31.
Definition to_s64 (z : Z) : Z := (z + 2 ^ 63) mod 2 ^ 64 - 2 ^ 63.

Definition is_s32 (z : Z) : Prop := - 2 ^ 31 <= z < 2 ^ 31.
Definition is_s64 (z : Z) : Prop := - 2 ^ 63 <= z < 2 ^ 63.
Definition is_u64 (z : Z) : Prop := 0 <= z < 2 ^ 64.

End CInt.
Import CInt.

(** ** binary32 arithmetic *)

Module F32.

Definition prec : Z := 24.
Definition emax : Z := 128.

Definition mul : spec_float -> spec_float -> spec_float := SFmul prec emax.
Definition add : spec_float -> spec_float -> spec_float := SFadd prec emax.
Definition sub : spec_float -> spec_float -> spec_float := SFsub prec emax.
Definition div : spec_float -> spec_float -> spec_float := SFdiv prec emax.

(** Conversion of an [int] to [float]. *)
Definition of_int (z : Z) : spec_float := binary_normalize prec emax z 0 false.

Definition one : spec_float := of_int 1.

(** The integer part of a float, rounded towards zero. *)
Definition trunc (f : spec_float) : option Z :=
  match f with
  | S754_zero _ => Some 0
  | S754_finite s m e =>
      let a := if 0 <=? e then Zpos m * 2 ^ e else Zpos m / 2 ^ (- e) in
      Some (if s then - a else a)
  | S754_infinity _ | S754_nan => None
  end.

(** Assignment of a [float] to a [uint8_t].  Inside 0..255 this is the
    truncation C prescribes.  Outside, C leaves the value open; the model
    takes the low byte of the 32-bit truncation (the wrap-around the
    design document speaks of), and 0 where even that does not exist. *)
Definition to_uint8 (f : spec_float) : Z :=
  match trunc f with
  | Some z => if (- 2 ^ 31 <=? z) && (z <? 2 ^ 31) then to_u8 z else 0
  | None => 0
  end.

Definition is_finite (f : spec_float) : bool :=
  match f with
  | S754_zero _ | S754_finite _ _ _ => true
  | _ => false
  end.

Definition is_zero (f : spec_float) : bool :=
  match f with
  | S754_zero _ => true
  | _ => false
  end.

End F32.

(** ** C strings *)

Definition newline : ascii := "010"%char.
Definition space : ascii := " "%char.

(** [strchr s c]: the suffix of [s] that starts at the first [c]. *)
Fixpoint strchr (s : string) (c : ascii) : option string :=
  match s with
  | EmptyString => None
  | String a rest => if Ascii.eqb a c then Some s else strchr rest c
  end.

(** [strrchr s c]: the suffix of [s] that starts at the last [c]. *)
Fixpoint strrchr (s : string) (c : ascii) : option string :=
  match s with
  | EmptyString => None
  | String a rest =>
      match strrchr rest c with
      | Some found => Some found
      | None => if Ascii.eqb a c then Some s else None
      end
  end.

Definition isspace (c : ascii) : bool :=
  let n := N_of_ascii c in
  (N.eqb n 32 || (N.leb 9 n && N.leb n 13))%bool.

Definition digit_of (c : ascii) : option Z :=
  let n := Z.of_N (N_of_ascii c) in
  if (48 <=? n) && (n <=? 57) then Some (n - 48) else None.

Fixpoint skip_spaces (s : string) : string :=
  match s with
  | String c rest => if isspace c then skip_spaces rest else s
  | EmptyString => s
  end.

(** The digits at the head of [s]: their value, how many there are, and what
    follows them. *)
Fixpoint read_digits (s : string) (acc : Z) (count : nat) : Z * nat * string :=
  match s with
  | String c rest =>
      match digit_of c with
      | Some d => read_digits rest (10 * acc + d) (S count)
      | None => (acc, count, s)
      end
  | EmptyString => (acc, count, s)
  end.

(** [strtoul s &end 10]: [None] when no conversion is done (then the result
    is 0 and [end == s]); otherwise the value and the text at [end].  A value
    past [ULONG_MAX] is [ULONG_MAX]; a minus sign negates in [unsigned long]. *)
Definition strtoul (s : string) : option (Z * string) :=
  let t := skip_spaces s in
  let '(negative, t) :=
    match t with
    | String "-"%char rest => (true, rest)
    | String "+"%char rest => (false, rest)
    | _ => (false, t)
    end in
  let '(v, count, rest) := read_digits t 0 0 in
  match count with
  | O => None
  | S _ =>
      let v := if 2 ^ 64 <=? v then 2 ^ 64 - 1 else if negative then to_u64 (- v) else v in
      Some (v, rest)
  end.

(** ** The results of a call *)

Inductive outcome (A : Type) : Type :=
| Done (a : A)      (* the call returned *)
| Undefined         (* the call dereferenced a NULL pointer *)
| Spinning.         (* the call was still looping when the budget ran out *)

Arguments Done {A} a.
Arguments Undefined {A}.
Arguments Spinning {A}.

Definition bind {A B : Type} (m : outcome A) (k : A -> outcome B) : outcome B :=
  match m with
  | Done a => k a
  | Undefined => Undefined
  | Spinning => Spinning
  end.

Declare Scope outcome_scope.
Delimit Scope outcome_scope with outcome.
Notation "'do' x <- m ; k" := (bind m (fun x => k))
  (at level 10, x pattern, m at level 100, k at level 200) : outcome_scope.
Local Open Scope outcome_scope.

(** ** Data of the plugin *)

Module Rectangle.
(** [ply_rectangle_t]: [long x, y; unsigned long width, height]. *)
Record t : Type := make { x : Z; y : Z; width : Z; height : Z }.
End Rectangle.

Inductive ply_label_alignment_t : Type :=
| PLY_LABEL_ALIGN_LEFT
| PLY_LABEL_ALIGN_CENTER
| PLY_LABEL_ALIGN_RIGHT.

(** [FT_Bitmap]: an 8-bit coverage map. *)
Record FT_Bitmap : Type := {
  rows : Z;
  bm_width : Z;
  pitch : Z;
  buffer : list Z
}.

(** What the glyph slot holds after a successful [FT_Load_Char]. *)
Record FT_GlyphSlot : Type := {
  advance_x : Z;      (* FT_Pos, 26.6 *)
  advance_y : Z;      (* FT_Pos, 26.6 *)
  bitmap_left : Z;    (* FT_Int *)
  bitmap_top : Z;     (* FT_Int *)
  bitmap : FT_Bitmap
}.

(** [face->size->metrics], 26.6 fixed point. *)
Record FT_Size_Metrics : Type := {
  ascender : Z;
  descender : Z;
  metrics_height : Z
}.

(** The size a face has been set to: the arguments of the last successful
    [FT_Set_Char_Size] or [FT_Set_Pixel_Sizes]. *)
Inductive FT_Face : Type :=
| Char_Size (char_width char_height horz_resolution vert_resolution : Z)
| Pixel_Sizes (pixel_width pixel_height : Z).

(** The rasteriser with its font file, a black box for the plugin: which
    glyph a character gives at a size ([None]: [FT_Load_Char] reports an
    error), the metrics of a size, and whether a size request is granted. *)
Record FreeType : Type := {
  load_char : FT_Face -> ascii -> option FT_GlyphSlot;
  size_metrics : FT_Face -> FT_Size_Metrics;
  size_granted : FT_Face -> bool
}.

Definition ply_pixel_display_t : Type := nat.

(** [struct _ply_label_plugin_control] *)
Record label_t : Type := {
  display : option ply_pixel_display_t;
  area : Rectangle.t;
  alignment : ply_label_alignment_t;
  width : Z;                      (* long *)
  face : FT_Face;
  text : option string;
  red : spec_float;
  green : spec_float;
  blue : spec_float;
  alpha : spec_float;
  is_hidden : bool
}.

Definition set_display d (l : label_t) : label_t :=
  Build_label_t d (area l) (alignment l) (width l) (face l) (text l)
    (red l) (green l) (blue l) (alpha l) (is_hidden l).
Definition set_area a (l : label_t) : label_t :=
  Build_label_t (display l) a (alignment l) (width l) (face l) (text l)
    (red l) (green l) (blue l) (alpha l) (is_hidden l).
Definition set_alignment a (l : label_t) : label_t :=
  Build_label_t (display l) (area l) a (width l) (face l) (text l)
    (red l) (green l) (blue l) (alpha l) (is_hidden l).
Definition set_width w (l : label_t) : label_t :=
  Build_label_t (display l) (area l) (alignment l) w (face l) (text l)
    (red l) (green l) (blue l) (alpha l) (is_hidden l).
Definition set_face f (l : label_t) : label_t :=
  Build_label_t (display l) (area l) (alignment l) (width l) f (text l)
    (red l) (green l) (blue l) (alpha l) (is_hidden l).
Definition set_text t (l : label_t) : label_t :=
  Build_label_t (display l) (area l) (alignment l) (width l) (face l) t
    (red l) (green l) (blue l) (alpha l) (is_hidden l).
Definition set_color r g b a (l : label_t) : label_t :=
  Build_label_t (display l) (area l) (alignment l) (width l) (face l) (text l)
    r g b a (is_hidden l).
Definition set_is_hidden h (l : label_t) : label_t :=
  Build_label_t (display l) (area l) (alignment l) (width l) (face l) (text l)
    (red l) (green l) (blue l) (alpha l) h.

(** A call of [ply_pixel_display_draw_area]: the display and the rectangle
    handed to it. *)
Definition draw_area_call : Type := (ply_pixel_display_t * Rectangle.t)%type.

(** The ARGB32 target of a draw.  [stores] is the trace of the assignments
    [target[i] = v] made so far, latest first. *)
Record ply_pixel_buffer_t : Type := {
  buf_width : Z;
  buf_height : Z;
  pixels : list Z;
  stores : list (Z * Z)
}.

Definition load_pixel (target : ply_pixel_buffer_t) (i : Z) : Z :=
  nth (Z.to_nat i) (pixels target) 0.

Fixpoint replace_nth (n : nat) (v : Z) (l : list Z) : list Z :=
  match l, n with
  | [], _ => []
  | _ :: tl, O => v :: tl
  | hd :: tl, S n' => hd :: replace_nth n' v tl
  end.

(** [target[i] = v].  The buffer is taken to hold [buf_width * buf_height]
    words, which is where [draw_bitmap] keeps its indices. *)
Definition store_pixel (target : ply_pixel_buffer_t) (i v : Z) : ply_pixel_buffer_t :=
  {| buf_width := buf_width target;
     buf_height := buf_height target;
     pixels := replace_nth (Z.to_nat i) v (pixels target);
     stores := (i, v) :: stores target |}.

Definition alignment_eqb (a b : ply_label_alignment_t) : bool :=
  match a, b with
  | PLY_LABEL_ALIGN_LEFT, PLY_LABEL_ALIGN_LEFT
  | PLY_LABEL_ALIGN_CENTER, PLY_LABEL_ALIGN_CENTER
  | PLY_LABEL_ALIGN_RIGHT, PLY_LABEL_ALIGN_RIGHT => true
  | _, _ => false
  end.

(** ** The plugin, over a rasteriser *)

Section Plugin.

Variable ft : FreeType.

Definition FT_Load_Char (f : FT_Face) (c : ascii) : option FT_GlyphSlot :=
  load_char ft f c.

(** The two size requests give the error flag and the face afterwards; a
    refused request leaves the face as it was. *)
Definition FT_Set_Char_Size (f : FT_Face) (w h hres vres : Z) : bool * FT_Face :=
  if size_granted ft (Char_Size w h hres vres)
  then (false, Char_Size w h hres vres) else (true, f).

Definition FT_Set_Pixel_Sizes (f : FT_Face) (w h : Z) : bool * FT_Face :=
  if size_granted ft (Pixel_Sizes w h)
  then (false, Pixel_Sizes w h) else (true, f).

(** [create_control], once the library is up and a font file is open:
    12pt at 96dpi, or no control at all. *)
Definition create_control : option label_t :=
  if size_granted ft (Char_Size (Z.shiftl 12 6) 0 96 0) then
    Some {| display := None;
            area := Rectangle.make 0 0 0 0;
            alignment := PLY_LABEL_ALIGN_LEFT;
            width := -1;
            face := Char_Size (Z.shiftl 12 6) 0 96 0;
            text := None;
            red := S754_zero false;
            green := S754_zero false;
            blue := S754_zero false;
            alpha := S754_zero false;
            is_hidden := true |}
  else None.

(** The two getters return [long]; the sides of the box are
    [unsigned long]. *)
Definition get_width_of_control (label : label_t) : Z :=
  to_s64 (Rectangle.width (area label)).

Definition get_height_of_control (label : label_t) : Z :=
  to_s64 (Rectangle.height (area label)).

(** *** Measuring *)

(** The [while] of [width_of_line], entered with [width] so far.  A
    failed load leaves [text] where it is and goes round again. *)
Fixpoint width_of_line_loop (budget : nat) (label : label_t)
    (text : string) (width : Z) {struct budget} : outcome Z :=
  match budget with
  | O => Spinning
  | S budget' =>
      match text with
      | EmptyString => Done width
      | String c rest =>
          if Ascii.eqb c newline then Done width
          else
            match FT_Load_Char (face label) c with
            | Some glyph =>
                let width := to_s32 (width + Z.shiftr (advance_x glyph) 6) in
                let left_bearing := bitmap_left glyph in
                let width :=
                  if left_bearing <? 0
                  then to_s32 (width + to_s32 (- left_bearing))
                  else width in
                width_of_line_loop budget' label rest width
            | None => width_of_line_loop budget' label text width
            end
      end
  end.

Definition width_of_line (budget : nat) (label : label_t) (text : string)
  : outcome Z :=
  width_of_line_loop budget label text 0.

(** The pixels a line of text takes: [(ascender - descender) >> 6]. *)
Definition line_height_px (label : label_t) : Z :=
  Z.shiftr (to_s64 (ascender (size_metrics ft (face label))
                    - descender (size_metrics ft (face label)))) 6.

(** The [while] of [size_control]; [w] and [h] are [area.width] and
    [area.height]. *)
Fixpoint size_control_loop (budget : nat) (label : label_t)
    (text : option string) (w h : Z) {struct budget} : outcome (Z * Z) :=
  match budget with
  | O => Spinning
  | S budget' =>
      match text with
      | None | Some EmptyString => Done (w, h)
      | Some (String _ _ as line) =>
          do width <- width_of_line budget label line;
          let w := if to_u32 width >? w then to_u64 width else w in
          let h := to_u64 (h + line_height_px label) in
          let text :=
            match strchr line newline with
            | Some (String _ after) => Some after
            | _ => None
            end in
          size_control_loop budget' label text w h
      end
  end.

Definition size_control (budget : nat) (label : label_t) : outcome label_t :=
  if is_hidden label then Done label
  else
    do (w, h) <- size_control_loop budget label (text label) 0 0;
    let w := if to_s64 w <? width label then to_u64 (width label) else w in
    Done (set_area (Rectangle.make (Rectangle.x (area label))
                                   (Rectangle.y (area label)) w h) label).

Definition trigger_redraw (budget : nat) (label : label_t) (adjust_size : bool)
  : outcome (label_t * list draw_area_call) :=
  let dirty_area := area label in
  match is_hidden label, display label with
  | false, Some d =>
      do label <- (if adjust_size then size_control budget label else Done label);
      Done (label, [(d, dirty_area)])
  | _, _ => Done (label, [])
  end.

(** *** Blending *)

Definition color_byte (channel : spec_float) : Z :=
  F32.to_uint8 (F32.mul (F32.of_int 255) channel).

(** [alpha] in the inner [for] of [draw_bitmap]: the label's opacity
    times the coverage of the glyph at that pixel. *)
Definition source_alpha (label : label_t) (coverage : Z) : spec_float :=
  F32.mul (alpha label) (F32.div (F32.of_int coverage) (F32.of_int 255)).

(** [(ad << 24) | (rd << 16) | (gd << 8) | bd], stored in a [uint32_t]. *)
Definition argb (ad rd gd bd : Z) : Z :=
  to_u32 (Z.lor (Z.lor (Z.lor (Z.shiftl ad 24) (Z.shiftl rd 16))
                       (Z.shiftl gd 8)) bd).

(** One channel: [invalpha * d + alpha * s], assigned to a [uint8_t]. *)
Definition mix (alpha invalpha : spec_float) (d s : Z) : Z :=
  F32.to_uint8 (F32.add (F32.mul invalpha (F32.of_int d))
                        (F32.mul alpha (F32.of_int s))).

(** The body of the inner [for] of [draw_bitmap]: the word stored for a
    coverage byte [coverage] over the word [dest]. *)
Definition blend (label : label_t) (coverage dest : Z) : Z :=
  let rs := color_byte (red label) in
  let gs := color_byte (green label) in
  let bs := color_byte (blue label) in
  let alpha := source_alpha label coverage in
  let invalpha := F32.sub F32.one alpha in
  let rd := to_u8 (Z.shiftr dest 16) in
  let gd := to_u8 (Z.shiftr dest 8) in
  let bd := to_u8 dest in
  let rd := mix alpha invalpha rd rs in
  let gd := mix alpha invalpha gd gs in
  let bd := mix alpha invalpha bd bs in
  let ad := F32.to_uint8 (F32.mul alpha (F32.of_int 255)) in
  argb ad rd gd bd.

Fixpoint draw_bitmap_row (n : nat) (label : label_t) (source : FT_Bitmap)
    (x xs y ys : Z) (target : ply_pixel_buffer_t) : ply_pixel_buffer_t :=
  match n with
  | O => target
  | S n' =>
      let i := x + buf_width target * y in
      let coverage := nth (Z.to_nat (xs + pitch source * ys)) (buffer source) 0 in
      let target := store_pixel target i (blend label coverage (load_pixel target i)) in
      draw_bitmap_row n' label source (x + 1) (xs + 1) y ys target
  end.

Fixpoint draw_bitmap_rows (n : nat) (label : label_t) (source : FT_Bitmap)
    (x_start x_end y ys : Z) (target : ply_pixel_buffer_t) : ply_pixel_buffer_t :=
  match n with
  | O => target
  | S n' =>
      let target :=
        draw_bitmap_row (Z.to_nat (x_end - x_start)) label source
                        x_start 0 y ys target in
      draw_bitmap_rows n' label source x_start x_end (y + 1) (ys + 1) target
  end.

Definition draw_bitmap (label : label_t) (target : ply_pixel_buffer_t)
    (source : FT_Bitmap) (x_start y_start : Z) : ply_pixel_buffer_t :=
  let x_end := to_s32 (Z.min (to_u32 (x_start + bm_width source)) (buf_width target)) in
  let y_end := to_s32 (Z.min (to_u32 (y_start + rows source)) (buf_height target)) in
  if (to_u32 x_start >=? buf_width target) || (to_u32 y_start >=? buf_height target)
  then target
  else draw_bitmap_rows (Z.to_nat (y_end - y_start)) label source
                        x_start x_end y_start 0 target.

(** *** Drawing *)

(** The test that lets [draw_control] return early: the label's box lies
    past one of the four sides of the damaged rectangle. *)
Definition outside (label : label_t) (x y width height : Z) : bool :=
  let a := area label in
  (Rectangle.x a >? to_s64 (x + to_s64 width))
  || (Rectangle.y a >? to_s64 (y + to_s64 height))
  || (to_s64 (Rectangle.x a + to_s64 (Rectangle.width a)) <? x)
  || (to_s64 (Rectangle.y a + to_s64 (Rectangle.height a)) <? y).

(** The inner [while] of [draw_control]: the characters up to the end of
    the line.  [continue] after a failed load goes back to the test with
    [cur_c] unmoved. *)
Fixpoint draw_line (budget : nat) (label : label_t) (cur_c : string)
    (pen_x pen_y : Z) (target : ply_pixel_buffer_t) {struct budget}
  : outcome (string * Z * Z * ply_pixel_buffer_t) :=
  match budget with
  | O => Spinning
  | S budget' =>
      match cur_c with
      | EmptyString => Done (cur_c, pen_x, pen_y, target)
      | String c rest =>
          if Ascii.eqb c newline then Done (cur_c, pen_x, pen_y, target)
          else
            match FT_Load_Char (face label) c with
            | None => draw_line budget' label cur_c pen_x pen_y target
            | Some slot =>
                let extraAdvance :=
                  if bitmap_left slot <? 0 then to_s32 (- bitmap_left slot) else 0 in
                let positiveBearingX :=
                  if bitmap_left slot <? 0 then 0 else bitmap_left slot in
                let target :=
                  draw_bitmap label target (bitmap slot)
                    (to_s32 (Z.shiftr pen_x 6 + positiveBearingX))
                    (to_s32 (Z.shiftr pen_y 6 - bitmap_top slot)) in
                let pen_x := to_s64 (pen_x + to_s64 (advance_x slot + extraAdvance)) in
                let pen_y := to_s64 (pen_y + advance_y slot) in
                draw_line budget' label rest pen_x pen_y target
            end
      end
  end.

(** The outer [while] of [draw_control]: one round per line. *)
Fixpoint draw_lines (budget : nat) (label : label_t) (cur_c : string)
    (pen_y : Z) (target : ply_pixel_buffer_t) {struct budget} : outcome ply_pixel_buffer_t :=
  match budget with
  | O => Spinning
  | S budget' =>
      match cur_c with
      | EmptyString => Done target
      | String _ _ =>
          let pen_x := to_s64 (Z.shiftl (Rectangle.x (area label)) 6) in
          let slack w := to_u64 (Rectangle.width (area label) - w) in
          do pen_x <-
            match alignment label with
            | PLY_LABEL_ALIGN_CENTER =>
                do w <- width_of_line budget label cur_c;
                Done (to_s64 (pen_x + to_u64 (Z.shiftl (slack w) 5)))
            | PLY_LABEL_ALIGN_RIGHT =>
                do w <- width_of_line budget label cur_c;
                Done (to_s64 (pen_x + to_u64 (Z.shiftl (slack w) 6)))
            | PLY_LABEL_ALIGN_LEFT => Done pen_x
            end;
          do (cur_c, _, pen_y, target) <- draw_line budget label cur_c pen_x pen_y target;
          let cur_c := match cur_c with String _ rest => rest | EmptyString => cur_c end in
          let pen_y := to_s64 (pen_y + metrics_height (size_metrics ft (face label))) in
          draw_lines budget' label cur_c pen_y target
      end
  end.

Definition draw_control (budget : nat) (label : label_t)
    (pixel_buffer : ply_pixel_buffer_t) (x y width height : Z) : outcome ply_pixel_buffer_t :=
  if is_hidden label then Done pixel_buffer
  else if outside label x y width height then Done pixel_buffer
  else if buf_height pixel_buffer =? 0 then Done pixel_buffer
  else
    let pen_y := to_s64 (to_s64 (Z.shiftl (Rectangle.y (area label)) 6)
                         + ascender (size_metrics ft (face label))) in
    match text label with
    | None => Undefined
    | Some cur_c => draw_lines budget label cur_c pen_y pixel_buffer
    end.

(** *** Setters *)

Definition set_alignment_for_control (budget : nat) (label : label_t)
    (a : ply_label_alignment_t) : outcome (label_t * list draw_area_call) :=
  if alignment_eqb (alignment label) a then Done (label, [])
  else trigger_redraw budget (set_alignment a label) true.

Definition set_width_for_control (budget : nat) (label : label_t) (w : Z)
  : outcome (label_t * list draw_area_call) :=
  if width label =? w then Done (label, [])
  else trigger_redraw budget (set_width w label) true.

(** The caller's string is never the label's private copy, so the two
    pointers are equal only when both are NULL.  [strdup (NULL)] is a
    NULL dereference. *)
Definition set_text_for_control (budget : nat) (label : label_t)
    (new_text : option string) : outcome (label_t * list draw_area_call) :=
  match text label, new_text with
  | None, None => Done (label, [])
  | Some _, None => Undefined
  | _, Some s => trigger_redraw budget (set_text (Some s) label) true
  end.

(** The first half of [set_font_for_control]: [size] and [size_in_pixels]. *)
Definition font_size_of (fontdesc : string) : Z * bool :=
  match strrchr fontdesc space with
  | None => (25, false)
  | Some size_str =>
      match strtoul size_str with
      | None => (25, false)
      | Some (size, size_str_after) => (size, String.eqb size_str_after "px")
      end
  end.

(** The face after the size request of [set_font_for_control]. *)
Definition face_for_font (f : FT_Face) (fontdesc : string) : FT_Face :=
  let '(size, size_in_pixels) := font_size_of fontdesc in
  if size_in_pixels
  then snd (FT_Set_Pixel_Sizes f 0 (to_u32 size))
  else snd (FT_Set_Char_Size f (to_s64 (Z.shiftl size 6)) 0 72 0).

Definition set_font_for_control (budget : nat) (label : label_t)
    (fontdesc : string) : outcome (label_t * list draw_area_call) :=
  trigger_redraw budget (set_face (face_for_font (face label) fontdesc) label) true.

Definition set_color_for_control (budget : nat) (label : label_t)
    (r g b a : spec_float) : outcome (label_t * list draw_area_call) :=
  trigger_redraw budget (set_color r g b a label) false.

Definition show_control (budget : nat) (label : label_t)
    (d : option ply_pixel_display_t) (x y : Z)
  : outcome (label_t * list draw_area_call) :=
  let dirty_area := area label in
  let label := set_display d label in
  let label :=
    set_area (Rectangle.make x y (Rectangle.width (area label))
                             (Rectangle.height (area label))) label in
  let label := set_is_hidden false label in
  do label <- size_control budget label;
  let calls :=
    match is_hidden label, display label with
    | false, Some d => [(d, dirty_area)]
    | _, _ => []
    end in
  Done (set_is_hidden false label, calls).

Definition hide_control (label : label_t) : label_t * list draw_area_call :=
  let label := set_is_hidden true label in
  let calls :=
    match display label with
    | Some d => [(d, area label)]
    | None => []
    end in
  (set_display None label, calls).

Definition is_control_hidden (label : label_t) : bool := is_hidden label.

End Plugin.

(** ** The interface table

    [ply_label_plugin_get_interface] hands out the operations below; a call
    through the table gives the control afterwards and the repaints asked
    of the display. *)

Inductive operation : Type :=
| Op_show (d : option ply_pixel_display_t) (x y : Z)
| Op_hide
| Op_draw (pixel_buffer : ply_pixel_buffer_t) (x y width height : Z)
| Op_set_text (new_text : option string)
| Op_set_alignment (a : ply_label_alignment_t)
| Op_set_width (w : Z)
| Op_set_font (fontdesc : string)
| Op_set_color (r g b a : spec_float).

Definition invoke (ft : FreeType) (budget : nat) (op : operation) (label : label_t)
  : outcome (label_t * list draw_area_call) :=
  match op with
  | Op_show d x y => show_control ft budget label d x y
  | Op_hide => Done (hide_control label)
  | Op_draw pixel_buffer x y w h =>
      do _ <- draw_control ft budget label pixel_buffer x y w h;
      Done (label, [])
  | Op_set_text t => set_text_for_control ft budget label t
  | Op_set_alignment a => set_alignment_for_control ft budget label a
  | Op_set_width w => set_width_for_control ft budget label w
  | Op_set_font fontdesc => set_font_for_control ft budget label fontdesc
  | Op_set_color r g b a => set_color_for_control ft budget label r g b a
  end.

(** ** The measures of the design document

    Written after the document, to compare the code with: the width of a
    line as a sum over its glyphs, and the widest of the lines of a text. *)

Module Design.

(** Advance in whole pixels, plus the bearing of a glyph that hangs to the
    left. *)
Definition glyph_extent (g : FT_GlyphSlot) : Z :=
  Z.shiftr (advance_x g) 6
  + (if bitmap_left g <? 0 then Z.abs (bitmap_left g) else 0).

(** A character that does not load counts for nothing. *)
Fixpoint measure_line (ft : FreeType) (f : FT_Face) (line : string) : Z :=
  match line with
  | EmptyString => 0
  | String c rest =>
      match load_char ft f c with
      | Some g => glyph_extent g
      | None => 0
      end + measure_line ft f rest
  end.

Definition widest (ft : FreeType) (f : FT_Face) (lines : list string) : Z :=
  fold_right Z.max 0 (map (measure_line ft f) lines).

End Design.

(** Every character of [s] loads at the size [f]. *)
Fixpoint loads (ft : FreeType) (f : FT_Face) (s : string) : bool :=
  match s with
  | EmptyString => true
  | String c rest =>
      match load_char ft f c with
      | Some _ => loads ft f rest
      | None => false
      end
  end.

Fixpoint newline_free (s : string) : bool :=
  match s with
  | EmptyString => true
  | String c rest => negb (Ascii.eqb c newline) && newline_free rest
  end.

(** A line of a text: not empty, no newline in it. *)
Definition is_line (s : string) : bool :=
  negb (String.eqb s EmptyString) && newline_free s.

(** The lines of a text, newlines between them. *)
Fixpoint join_lines (lines : list string) : string :=
  match lines with
  | [] => EmptyString
  | [line] => line
  | line :: rest => (line ++ String newline (join_lines rest))%string
  end.

(** What makes a line measurable for [label]: it is a line, its characters
    load, and its width is a non-negative [int]. *)
Definition fits (ft : FreeType) (label : label_t) (line : string) : Prop :=
  is_line line = true
  /\ loads ft (face label) line = true
  /\ 0 <= Design.measure_line ft (face label) line < 2 ^ 31.

(** The cached box of [label] is what measuring it now gives. *)
Definition box_current (ft : FreeType) (label : label_t) : Prop :=
  exists budget, size_control ft budget label = Done label.

(** The cached box is right while the label is shown on a display. *)
Definition box_valid (ft : FreeType) (label : label_t) : Prop :=
  is_hidden label = false -> display label <> None -> box_current ft label.

(** The same with the display left out, as the design document has it. *)
Definition box_valid_when_visible (ft : FreeType) (label : label_t) : Prop :=
  is_hidden label = false -> box_current ft label.

(** The closed rectangles of the label's box and of the damage lie apart. *)
Definition apart (a : Rectangle.t) (x y width height : Z) : Prop :=
  Rectangle.x a > x + width \/ Rectangle.y a > y + height
  \/ Rectangle.x a + Rectangle.width a < x
  \/ Rectangle.y a + Rectangle.height a < y.

(** The closed rectangles of the box and of the damage share a point: they
    overlap, or touch along an edge or at a corner. *)
Definition meet (a : Rectangle.t) (x y width height : Z) : Prop :=
  Rectangle.x a <= x + width /\ Rectangle.y a <= y + height
  /\ x <= Rectangle.x a + Rectangle.width a
  /\ y <= Rectangle.y a + Rectangle.height a.

(** The half-open rectangles of the box and of the damage share no pixel. *)
Definition disjoint_half_open (a : Rectangle.t) (x y width height : Z) : Prop :=
  Rectangle.x a >= x + width \/ Rectangle.y a >= y + height
  \/ Rectangle.x a + Rectangle.width a <= x
  \/ Rectangle.y a + Rectangle.height a <= y.

(** The values of a [uint8_t]. *)
Definition bytes : list Z := map Z.of_nat (seq 0 256).

(** Sameness of two floats, as data. *)
Definition same_float (a b : spec_float) : bool :=
  match a, b with
  | S754_zero s, S754_zero t => Bool.eqb s t
  | S754_infinity s, S754_infinity t => Bool.eqb s t
  | S754_nan, S754_nan => true
  | S754_finite s m e, S754_finite t n f => Bool.eqb s t && Pos.eqb m n && (e =? f)
  | _, _ => false
  end.

(** Coordinates small enough for the sums of the overlap test. *)
Definition small (z : Z) : Prop := - 2 ^ 62 <= z < 2 ^ 62.

Definition all_small (a : Rectangle.t) (x y width height : Z) : Prop :=
  small x /\ small y /\ small width /\ small height
  /\ small (Rectangle.x a) /\ small (Rectangle.y a)
  /\ small (Rectangle.width a) /\ small (Rectangle.height a).

(** ** A small rasteriser to run the plugin on

    The font has an em of [em_px] pixels at the selected size.  Every
    character is half an em wide and one dot of full coverage, except:
    [j] is a quarter em wide and hangs two pixels to the left; [<] moves
    the pen one pixel back; [?] cannot be loaded.  A size of zero is
    refused. *)

Module Sample.

Definition em_px (f : FT_Face) : Z :=
  match f with
  | Char_Size w _ hres _ => w * hres / (72 * 64)
  | Pixel_Sizes _ h => h
  end.

Definition dot : FT_Bitmap :=
  {| rows := 1; bm_width := 1; pitch := 1; buffer := [255] |}.

Definition glyph (f : FT_Face) (adv left : Z) : FT_GlyphSlot :=
  {| advance_x := adv; advance_y := 0; bitmap_left := left;
     bitmap_top := Z.shiftr (em_px f * 48) 6; bitmap := dot |}.

Definition load (f : FT_Face) (c : ascii) : option FT_GlyphSlot :=
  if Ascii.eqb c "?" then None
  else if Ascii.eqb c "j" then Some (glyph f (em_px f * 16) (-2))
  else if Ascii.eqb c "<" then Some (glyph f (-64) 0)
  else Some (glyph f (em_px f * 32) 0).

Definition metrics (f : FT_Face) : FT_Size_Metrics :=
  {| ascender := em_px f * 48; descender := - (em_px f * 16);
     metrics_height := em_px f * 72 |}.

Definition granted (f : FT_Face) : bool :=
  match f with
  | Char_Size w _ _ _ => 0 <? w
  | Pixel_Sizes _ h => 0 <? h
  end.

Definition ft : FreeType :=
  {| load_char := load; size_metrics := metrics; size_granted := granted |}.

(** A fresh control: hidden, no text, 12pt at 96dpi (an em of 16). *)
Definition fresh : label_t :=
  {| display := None;
     area := Rectangle.make 0 0 0 0;
     alignment := PLY_LABEL_ALIGN_LEFT;
     width := -1;
     face := Char_Size 768 0 96 0;
     text := None;
     red := S754_zero false;
     green := S754_zero false;
     blue := S754_zero false;
     alpha := S754_zero false;
     is_hidden := true |}.

(** An all-zero target of [w] by [h] words on which nothing is stored yet. *)
Definition blank (w h : nat) : ply_pixel_buffer_t :=
  {| buf_width := Z.of_nat w; buf_height := Z.of_nat h;
     pixels := repeat 0 (w * h); stores := [] |}.

(** The label after a run of calls, where each of them returned. *)
Definition after {A : Type} (r : outcome (label_t * A)) : label_t :=
  match r with
  | Done (l, _) => l
  | _ => fresh
  end.

(** A hidden control that has been given the text [s]. *)
Definition titled (s : string) : label_t :=
  after (set_text_for_control ft 64 fresh (Some s)).

(** The control with text [s] after it is shown on [d] at [(x, y)]. *)
Definition shown (s : string) (d : option ply_pixel_display_t) (x y : Z)
  : label_t :=
  after (show_control ft 64 (titled s) d x y).

Definition two_lines : string := join_lines ["aj"%string; "a"%string].

(** A control shown without a display and then given a text whose second
    character does not load: visible, and never measured with that text. *)
Definition unmeasured : label_t :=
  after (set_text_for_control ft 64 (shown "a" None 0 0) (Some "a?b"%string)).

(** The text aj at (5, 7) on display 1, in opaque yellow. *)
Definition yellow : label_t :=
  after (set_color_for_control ft 64 (shown "aj" (Some 1%nat) 5 7)
           F32.one F32.one (S754_zero false) F32.one).

(** A control with the empty text and a least width of 5, on display. *)
Definition padded : label_t :=
  after (show_control ft 64
           (after (set_text_for_control ft 64
                     (after (set_width_for_control ft 64 fresh 5))
                     (Some EmptyString)))
           (Some 1%nat) 0 0).

End Sample.

(** ** Further notions for the properties below *)

(** A hidden label holds no display. *)
Definition detached_when_hidden (label : label_t) : Prop :=
  is_hidden label = true -> display label = None.

(** Every character of [s] other than the newline loads at the size [f]. *)
Fixpoint glyphs_load (ft : FreeType) (f : FT_Face) (s : string) : bool :=
  match s with
  | EmptyString => true
  | String c rest =>
      (Ascii.eqb c newline
       || match load_char ft f c with Some _ => true | None => false end)
      && glyphs_load ft f rest
  end.

(** A target whose words are all there, with sides that fit an [int]. *)
Definition sound_buffer (t : ply_pixel_buffer_t) : Prop :=
  0 <= buf_width t < 2 ^ 31 /\ 0 <= buf_height t < 2 ^ 31
  /\ Z.of_nat (List.length (pixels t)) = buf_width t * buf_height t.

(** [t'] is [t] after some stores, each of them at an index that [inside]
    accepts; the sides and the number of words are those of [t]. *)
Definition stored_only (inside : Z -> Prop) (t t' : ply_pixel_buffer_t) : Prop :=
  buf_width t' = buf_width t /\ buf_height t' = buf_height t
  /\ List.length (pixels t') = List.length (pixels t)
  /\ exists new, stores t' = new ++ stores t
                 /\ Forall (fun s => inside (fst s)) new.

(** The indices of the words of [t]. *)
Definition in_buffer (t : ply_pixel_buffer_t) (i : Z) : Prop :=
  0 <= i < buf_width t * buf_height t.

Fixpoint all_digits (s : string) : bool :=
  match s with
  | EmptyString => true
  | String c rest =>
      match digit_of c with Some _ => all_digits rest | None => false end
  end.

(** The number a run of decimal digits writes, read after [acc]. *)
Fixpoint decimal (s : string) (acc : Z) : Z :=
  match s with
  | EmptyString => acc
  | String c rest =>
      match digit_of c with
      | Some d => decimal rest (10 * acc + d)
      | None => acc
      end
  end.

Fixpoint has_char (c : ascii) (s : string) : bool :=
  match s with
  | EmptyString => false
  | String a rest => Ascii.eqb a c || has_char c rest
  end.

(** The first character of [s], if any, is no digit. *)
Definition no_digit_ahead (s : string) : bool :=
  match s with
  | EmptyString => true
  | String c _ => match digit_of c with Some _ => false | None => true end
  end.

(** The operations that neither show nor hide the label and hand it a
    string where they hand it a text. *)
Definition is_setter (op : operation) : bool :=
  match op with
  | Op_show _ _ _ | Op_hide | Op_set_text None => false
  | _ => true
  end.

(** * Properties *)

(** The sample control is the one [create_control] makes. *)
Example sample_fresh_is_created : create_control Sample.ft = Some Sample.fresh.
Proof. reflexivity. Qed.

(** ** Conversions between integer types *)

Module CIntFacts.

Lemma to_s32_id z : is_s32 z -> to_s32 z = z.
Proof.
  unfold is_s32, to_s32. intros H.
  rewrite Z.mod_small by lia. lia.
Qed.

Lemma to_s32_add_l a b : to_s32 (to_s32 a + b) = to_s32 (a + b).
Proof.
  unfold to_s32. f_equal.
  replace ((a + 2 ^ 31) mod 2 ^ 32 - 2 ^ 31 + b + 2 ^ 31)
    with ((a + 2 ^ 31) mod 2 ^ 32 + b) by lia.
  rewrite Zplus_mod_idemp_l. f_equal. lia.
Qed.

Lemma to_s32_add_r a b : to_s32 (a + to_s32 b) = to_s32 (a + b).
Proof. rewrite Z.add_comm, to_s32_add_l. f_equal. lia. Qed.

Lemma to_s32_range z : is_s32 (to_s32 z).
Proof.
  unfold is_s32, to_s32.
  pose proof (Z.mod_pos_bound (z + 2 ^ 31) (2 ^ 32)). lia.
Qed.

Lemma to_u32_small z : 0 <= z < 2 ^ 32 -> to_u32 z = z.
Proof. intros H. unfold to_u32. now rewrite Z.mod_small. Qed.

Lemma to_u64_small z : is_u64 z -> to_u64 z = z.
Proof. intros H. unfold to_u64. now rewrite Z.mod_small. Qed.

Lemma to_u64_add_l a b : to_u64 (to_u64 a + b) = to_u64 (a + b).
Proof. unfold to_u64. now rewrite Zplus_mod_idemp_l. Qed.

Lemma to_s64_id z : is_s64 z -> to_s64 z = z.
Proof.
  unfold is_s64, to_s64. intros H.
  rewrite Z.mod_small by lia. lia.
Qed.

Lemma to_u8_range z : 0 <= to_u8 z < 256.
Proof. unfold to_u8. apply (Z.mod_pos_bound z (2 ^ 8)). lia. Qed.

Lemma to_u8_small z : 0 <= z < 256 -> to_u8 z = z.
Proof. intros H. unfold to_u8. rewrite Z.mod_small; lia. Qed.

End CIntFacts.
Import CIntFacts.

(** ** Runs of the loops and their budget *)

Section Measuring.

Variable ft : FreeType.

Lemma newline_eqb_refl : Ascii.eqb newline newline = true.
Proof. reflexivity. Qed.

(** What the loop of [width_of_line] adds for one loaded glyph is the
    extent of the design, up to the width of an [int]. *)
Lemma glyph_step width g :
  (let w := to_s32 (width + Z.shiftr (advance_x g) 6) in
   if bitmap_left g <? 0 then to_s32 (w + to_s32 (- bitmap_left g)) else w)
  = to_s32 (width + Design.glyph_extent g).
Proof.
  unfold Design.glyph_extent. cbv zeta.
  destruct (bitmap_left g <? 0) eqn:E.
  - apply Z.ltb_lt in E.
    rewrite to_s32_add_r, to_s32_add_l. f_equal. lia.
  - f_equal. lia.
Qed.

(** A character that cannot be loaded keeps the loop of [width_of_line]
    busy for ever. *)
Lemma width_of_line_loop_stuck label c rest :
  Ascii.eqb c newline = false ->
  FT_Load_Char ft (face label) c = None ->
  forall budget width,
    width_of_line_loop ft budget label (String c rest) width = Spinning.
Proof.
  intros Hc Hload. induction budget as [|budget IH]; intros width.
  - reflexivity.
  - simpl. rewrite Hc, Hload. apply IH.
Qed.

(** Over characters that load, the loop walks to the end of the line and
    carries the sum with it. *)
Lemma width_of_line_loop_app label line :
  newline_free line = true ->
  loads ft (face label) line = true ->
  forall k tail width,
    is_s32 width ->
    width_of_line_loop ft (String.length line + k) label (line ++ tail) width
    = width_of_line_loop ft k label tail
        (to_s32 (width + Design.measure_line ft (face label) line)).
Proof.
  induction line as [|c line IH]; intros Hnl Hld k tail width Hw.
  - simpl. now rewrite Z.add_0_r, to_s32_id.
  - simpl in Hnl, Hld. apply andb_prop in Hnl as [Hc Hnl].
    apply negb_true_iff in Hc.
    destruct (load_char ft (face label) c) as [g|] eqn:Hg; [|discriminate].
    cbn [String.length Nat.add append width_of_line_loop].
    unfold FT_Load_Char. rewrite Hc, Hg.
    rewrite glyph_step.
    rewrite IH by (auto using to_s32_range).
    f_equal. rewrite to_s32_add_l. f_equal.
    cbn [Design.measure_line]. rewrite Hg. lia.
Qed.

(** The loop stops at the end of the text and at a newline. *)
Lemma width_of_line_loop_stop label k tail width :
  (tail = EmptyString \/ exists rest, tail = String newline rest) ->
  width_of_line_loop ft (S k) label tail width = Done width.
Proof.
  intros [-> | [rest ->]]; reflexivity.
Qed.

(** [width_of_line] on a line whose characters load, followed by the end
    of the text or by a newline. *)
Lemma width_of_line_line label line tail budget :
  newline_free line = true ->
  loads ft (face label) line = true ->
  (tail = EmptyString \/ exists rest, tail = String newline rest) ->
  (String.length line < budget)%nat ->
  width_of_line ft budget label (line ++ tail)
  = Done (to_s32 (Design.measure_line ft (face label) line)).
Proof.
  intros Hnl Hld Htail Hb. unfold width_of_line.
  replace budget with (String.length line + S (budget - String.length line - 1))%nat by lia.
  rewrite width_of_line_loop_app by (auto; unfold is_s32; lia).
  now rewrite width_of_line_loop_stop.
Qed.

Lemma append_empty_r (s : string) : (s ++ EmptyString)%string = s.
Proof. induction s as [|c s IH]; simpl; congruence. Qed.

Lemma length_append (s t : string) :
  String.length (s ++ t) = (String.length s + String.length t)%nat.
Proof. induction s as [|c s IH]; simpl; congruence. Qed.

Lemma newline_free_append s t :
  newline_free (s ++ t) = newline_free s && newline_free t.
Proof.
  induction s as [|c s IH]; simpl; [reflexivity|].
  rewrite IH. now rewrite andb_assoc.
Qed.

Lemma loads_append f s t : loads ft f (s ++ t) = loads ft f s && loads ft f t.
Proof.
  induction s as [|c s IH]; simpl; [reflexivity|].
  destruct (load_char ft f c); auto.
Qed.

Lemma measure_line_append f s t :
  Design.measure_line ft f (s ++ t)
  = Design.measure_line ft f s + Design.measure_line ft f t.
Proof.
  induction s as [|c s IH]; simpl; [reflexivity|]. rewrite IH. lia.
Qed.

End Measuring.

Section Budget.

Variable ft : FreeType.

(** A run that returned returns the same with a larger budget. *)
Lemma width_of_line_loop_more label budget :
  forall text width r,
    width_of_line_loop ft budget label text width = Done r ->
    forall budget', (budget <= budget')%nat ->
      width_of_line_loop ft budget' label text width = Done r.
Proof.
  induction budget as [|budget IH]; intros text width r H budget' Hle.
  - discriminate.
  - destruct budget' as [|budget']; [lia|].
    simpl in *. destruct text as [|c rest]; [assumption|].
    destruct (Ascii.eqb c newline); [assumption|].
    destruct (FT_Load_Char ft (face label) c);
      (eapply IH; [eassumption | lia]).
Qed.

Lemma size_control_loop_more label budget :
  forall text w h r,
    size_control_loop ft budget label text w h = Done r ->
    forall budget', (budget <= budget')%nat ->
      size_control_loop ft budget' label text w h = Done r.
Proof.
  induction budget as [|budget IH]; intros text w h r H budget' Hle.
  - discriminate.
  - destruct budget' as [|budget']; [lia|].
    cbn [size_control_loop] in *.
    destruct text as [[|c rest]|]; try assumption.
    destruct (width_of_line ft (S budget) label (String c rest)) as [wl| |] eqn:E;
      try discriminate.
    unfold width_of_line in *.
    rewrite (width_of_line_loop_more _ _ _ _ _ E (S budget')) by lia.
    cbn [bind] in *. eapply IH; [eassumption | lia].
Qed.

Lemma size_control_more label budget l' :
  size_control ft budget label = Done l' ->
  forall budget', (budget <= budget')%nat ->
    size_control ft budget' label = Done l'.
Proof.
  unfold size_control. intros H budget' Hle.
  destruct (is_hidden label); [assumption|].
  destruct (size_control_loop ft budget label (text label) 0 0) as [[w h]| |] eqn:E;
    try discriminate.
  now rewrite (size_control_loop_more _ _ _ _ _ _ E budget' Hle).
Qed.

(** Whatever the budget, a run of [size_control] that returns gives one
    and the same control. *)
Lemma size_control_one_result label b1 b2 l1 l2 :
  size_control ft b1 label = Done l1 ->
  size_control ft b2 label = Done l2 ->
  l1 = l2.
Proof.
  intros H1 H2.
  apply size_control_more with (budget' := Nat.max b1 b2) in H1; [|lia].
  apply size_control_more with (budget' := Nat.max b1 b2) in H2; [|lia].
  congruence.
Qed.

End Budget.

(** ** Measuring a line *)

(** C1 (fails on the code): a character whose glyph cannot be loaded is not
    skipped by [width_of_line]; the loop asks for the same glyph again and
    again.  On the text a?b, whose second character does not load, no budget
    of iterations is enough for the call to return. *)
Theorem width_of_line_spins_on_failed_load :
  forall budget,
    width_of_line Sample.ft budget (Sample.titled "a?b") "a?b" = Spinning.
Proof.
  intros [|budget]; [reflexivity|].
  unfold width_of_line. cbn [width_of_line_loop].
  change (Ascii.eqb "a" newline) with false. cbv iota.
  change (FT_Load_Char Sample.ft (face (Sample.titled "a?b")) "a")
    with (Some (Sample.glyph (Char_Size 768 0 96 0) 512 0)).
  cbv iota beta zeta.
  apply width_of_line_loop_stuck; reflexivity.
Qed.

(** C8, as the design document has it, fails: the width of a line shrinks
    when a glyph with a negative advance is appended. *)
Lemma width_of_line_not_monotone :
  exists r r',
    width_of_line Sample.ft 9 Sample.fresh "a" = Done r
    /\ width_of_line Sample.ft 9 Sample.fresh "a<" = Done r'
    /\ r' < r.
Proof.
  exists 8, 7. repeat split.
Qed.

(** C8 (amended): for a text without newline whose characters all load,
    [width_of_line] returns the sum over the glyphs of [advance.x >> 6] plus
    the size of each negative left bearing, kept in an [int]; and when
    characters are appended whose extents sum to nothing negative, the result
    does not decrease as long as the sums fit an [int]. *)
Theorem width_of_line_sum_and_growth ft label text more budget :
  newline_free (text ++ more) = true ->
  loads ft (face label) (text ++ more) = true ->
  (String.length (text ++ more) < budget)%nat ->
  width_of_line ft budget label text
    = Done (to_s32 (Design.measure_line ft (face label) text))
  /\ width_of_line ft budget label (text ++ more)
    = Done (to_s32 (Design.measure_line ft (face label) (text ++ more)))
  /\ (is_s32 (Design.measure_line ft (face label) text) ->
      is_s32 (Design.measure_line ft (face label) (text ++ more)) ->
      0 <= Design.measure_line ft (face label) more ->
      to_s32 (Design.measure_line ft (face label) text)
        = Design.measure_line ft (face label) text
      /\ to_s32 (Design.measure_line ft (face label) text)
         <= to_s32 (Design.measure_line ft (face label) (text ++ more))).
Proof.
  intros Hnl Hld Hb.
  pose proof Hnl as Hnl'. pose proof Hld as Hld'.
  rewrite newline_free_append in Hnl'. apply andb_prop in Hnl' as [Hnl1 _].
  rewrite loads_append in Hld'. apply andb_prop in Hld' as [Hld1 _].
  rewrite length_append in Hb.
  split; [|split].
  - rewrite <- (append_empty_r text) at 1.
    apply width_of_line_line; auto. lia.
  - rewrite <- (append_empty_r (text ++ more)) at 1.
    apply width_of_line_line; auto. rewrite length_append. lia.
  - intros H1 H2 Hpos.
    rewrite !to_s32_id by assumption.
    rewrite measure_line_append. lia.
Qed.

Lemma width_of_line_sum_and_growth_witness :
  newline_free ("aj" ++ "a") = true
  /\ loads Sample.ft (face Sample.fresh) ("aj" ++ "a") = true
  /\ (String.length ("aj" ++ "a")%string < 9)%nat
  /\ width_of_line Sample.ft 9 Sample.fresh "aj" = Done 14
  /\ width_of_line Sample.ft 9 Sample.fresh ("aj" ++ "a") = Done 22
  /\ to_s32 (Design.measure_line Sample.ft (face Sample.fresh) "aj")
     <= to_s32 (Design.measure_line Sample.ft (face Sample.fresh) ("aj" ++ "a")).
Proof.
  split; [reflexivity|]. split; [reflexivity|]. split; [simpl; lia|].
  pose proof (width_of_line_sum_and_growth Sample.ft Sample.fresh "aj" "a" 9
                eq_refl eq_refl ltac:(simpl; lia)) as [H1 [H2 H3]].
  split; [exact H1|]. split; [exact H2|].
  apply H3; vm_compute; intuition discriminate.
Defined.

(** ** Measuring a text *)

Section Sizing.

Variable ft : FreeType.

Lemma strchr_past_line line tail :
  newline_free line = true ->
  strchr (line ++ tail) newline = strchr tail newline.
Proof.
  induction line as [|c line IH]; intros H; simpl in *; [reflexivity|].
  apply andb_prop in H as [Hc H]. apply negb_true_iff in Hc.
  rewrite Hc. auto.
Qed.

Lemma is_line_cons line :
  is_line line = true ->
  exists c rest, line = String c rest /\ newline_free line = true.
Proof.
  unfold is_line. intros H. apply andb_prop in H as [H1 H2].
  destruct line as [|c rest]; [discriminate|]. eauto.
Qed.

(** One round of the loop of [size_control] on a measurable line. *)
Lemma size_control_loop_round label line tail budget w h :
  fits ft label line ->
  (tail = EmptyString \/ exists rest, tail = String newline rest) ->
  (String.length line < S budget)%nat ->
  0 <= w < 2 ^ 31 ->
  size_control_loop ft (S budget) label (Some (line ++ tail)%string) w h
  = size_control_loop ft budget label
      (match tail with String _ after => Some after | EmptyString => None end)
      (Z.max w (Design.measure_line ft (face label) line))
      (to_u64 (h + line_height_px ft label)).
Proof.
  intros (Hline & Hld & Hm) Htail Hb Hw.
  destruct (is_line_cons _ Hline) as (c & rest & -> & Hnl).
  cbn [size_control_loop append].
  change (String c (rest ++ tail)) with (String c rest ++ tail)%string.
  rewrite (width_of_line_line ft label (String c rest) tail (S budget)) by auto.
  cbn [bind]. rewrite strchr_past_line by assumption.
  rewrite to_s32_id by (unfold is_s32; lia).
  rewrite to_u32_small by lia.
  rewrite to_u64_small by (unfold is_u64; lia).
  replace (if Design.measure_line ft (face label) (String c rest) >? w
           then Design.measure_line ft (face label) (String c rest) else w)
    with (Z.max w (Design.measure_line ft (face label) (String c rest))).
  2:{ destruct (Z.gtb_spec (Design.measure_line ft (face label) (String c rest)) w); lia. }
  f_equal.
  destruct Htail as [-> | [after ->]]; [reflexivity|].
  cbn [strchr]. now rewrite newline_eqb_refl.
Qed.

Lemma widest_range label lines :
  Forall (fits ft label) lines ->
  0 <= Design.widest ft (face label) lines < 2 ^ 31.
Proof.
  induction 1 as [|line lines (_ & _ & Hm) _ IH]; unfold Design.widest in *; simpl; lia.
Qed.

Lemma to_u64_range z : is_u64 (to_u64 z).
Proof. unfold is_u64, to_u64. apply Z.mod_pos_bound. lia. Qed.

(** An [unsigned long] read as a [long] is the number it came from, read as
    a [long]. *)
Lemma to_s64_to_u64 z : to_s64 (to_u64 z) = to_s64 z.
Proof. unfold to_s64, to_u64. now rewrite Zplus_mod_idemp_l. Qed.

(** The loop of [size_control] over the lines of a text. *)
Lemma size_control_loop_lines label lines :
  Forall (fits ft label) lines ->
  forall budget w h,
    (String.length (join_lines lines) < budget)%nat ->
    0 <= w < 2 ^ 31 ->
    is_u64 h ->
    size_control_loop ft budget label (Some (join_lines lines)) w h
    = Done (Z.max w (Design.widest ft (face label) lines),
            to_u64 (h + Z.of_nat (List.length lines) * line_height_px ft label)).
Proof.
  induction 1 as [|line lines Hfit Hrest IH]; intros budget w h Hb Hw Hh.
  - destruct budget as [|budget]; [simpl in Hb; lia|].
    cbn [join_lines size_control_loop List.length Design.widest map fold_right].
    rewrite Z.mul_0_l, Z.add_0_r, to_u64_small by assumption.
    f_equal. f_equal. lia.
  - destruct budget as [|budget]; [lia|].
    pose proof (widest_range label lines Hrest) as Hwd.
    destruct Hfit as (Hline & Hld & Hm).
    assert (Hfit : fits ft label line) by (repeat split; tauto).
    assert (Hstep : forall k, to_u64 (to_u64 (h + line_height_px ft label)
                                      + Z.of_nat k * line_height_px ft label)
                              = to_u64 (h + Z.of_nat (S k) * line_height_px ft label)).
    { intros k. rewrite to_u64_add_l. f_equal. lia. }
    destruct lines as [|line2 lines].
    + cbn [join_lines] in *.
      rewrite <- (append_empty_r line) at 1.
      rewrite size_control_loop_round by (auto; lia).
      destruct budget as [|budget].
      { destruct (is_line_cons _ Hline) as (c & rest & -> & _). simpl in Hb. lia. }
      cbn [size_control_loop List.length Design.widest map fold_right].
      f_equal. f_equal; [lia|]. f_equal. lia.
    + change (join_lines (line :: line2 :: lines))
        with (line ++ String newline (join_lines (line2 :: lines)))%string in *.
      rewrite length_append in Hb. cbn [String.length] in Hb.
      rewrite size_control_loop_round by (eauto; lia).
      rewrite IH by (auto using to_u64_range; lia).
      rewrite Hstep.
      f_equal. f_equal.
      change (Design.widest ft (face label) (line :: line2 :: lines))
        with (Z.max (Design.measure_line ft (face label) line)
                    (Design.widest ft (face label) (line2 :: lines))).
      lia.
Qed.

(** [size_control] on a shown label whose lines fit: the box it leaves. *)
Lemma size_control_lines label lines budget :
  is_hidden label = false ->
  text label = Some (join_lines lines) ->
  Forall (fits ft label) lines ->
  width label < 2 ^ 63 ->
  (String.length (join_lines lines) < budget)%nat ->
  size_control ft budget label
  = Done (set_area
            (Rectangle.make (Rectangle.x (area label)) (Rectangle.y (area label))
               (Z.max (Design.widest ft (face label) lines) (width label))
               (to_u64 (Z.of_nat (List.length lines) * line_height_px ft label)))
            label).
Proof.
  intros Hvis Htext Hfits Hmin Hb.
  pose proof (widest_range label lines Hfits) as Hwd.
  unfold size_control. rewrite Hvis, Htext.
  rewrite size_control_loop_lines by (auto; unfold is_u64; lia).
  cbn [bind]. rewrite Z.max_r by lia.
  rewrite to_s64_id by (unfold is_s64; lia).
  destruct (Z.ltb_spec (Design.widest ft (face label) lines) (width label)).
  - rewrite to_u64_small by (unfold is_u64; lia).
    now rewrite Z.max_r by lia.
  - now rewrite Z.max_l by lia.
Qed.

(** What the getters report of a box as wide as a line or a least width
    and some line heights high. *)
Lemma getters_of_box label widest least z :
  Rectangle.width (area label) = Z.max widest least ->
  Rectangle.height (area label) = to_u64 z ->
  0 <= widest < 2 ^ 31 -> least < 2 ^ 63 ->
  get_width_of_control label = Z.max widest least
  /\ get_height_of_control label = to_s64 z.
Proof.
  intros Hw Hh Hwd Hl. unfold get_width_of_control, get_height_of_control.
  rewrite Hw, Hh, to_s64_to_u64.
  split; [|reflexivity]. apply to_s64_id. unfold is_s64. lia.
Qed.

End Sizing.

(** C3, as the design document has it, fails: with the empty text and a
    least width of 5 the box is 5 wide, not 0. *)
Lemma size_control_empty_text_not_0x0 :
  text Sample.padded = Some EmptyString
  /\ is_hidden Sample.padded = false
  /\ size_control Sample.ft 9 Sample.padded
     = Done (set_area (Rectangle.make 0 0 5 0) Sample.padded)
  /\ (5, 0) <> (0, 0).
Proof.
  repeat split; try (vm_compute; reflexivity). discriminate.
Qed.

(** C3 (amended): on a shown label whose text is made of N lines with
    newlines between them, each line not empty, loading, and of a width that
    is a non-negative [int], [size_control] returns with a box as wide as the
    widest line or the least width asked for, whichever is larger, and N line
    heights high; the height is kept in an [unsigned long] and reported by
    [get_height_of_control] as a [long].  For no line at all, that is for the
    empty text, the box is as wide as the least width when that is positive,
    else 0, and 0 high. *)
Theorem size_control_box ft label lines budget :
  is_hidden label = false ->
  text label = Some (join_lines lines) ->
  Forall (fits ft label) lines ->
  width label < 2 ^ 63 ->
  (String.length (join_lines lines) < budget)%nat ->
  exists l',
    size_control ft budget label = Done l'
    /\ Rectangle.width (area l')
       = Z.max (Design.widest ft (face label) lines) (width label)
    /\ Rectangle.height (area l')
       = to_u64 (Z.of_nat (List.length lines) * line_height_px ft label)
    /\ get_width_of_control l'
       = Z.max (Design.widest ft (face label) lines) (width label)
    /\ get_height_of_control l'
       = to_s64 (Z.of_nat (List.length lines) * line_height_px ft label)
    /\ (lines = [] ->
        get_width_of_control l' = Z.max 0 (width label)
        /\ get_height_of_control l' = 0).
Proof.
  intros Hvis Htext Hfits Hmin Hb.
  pose proof (widest_range ft label lines Hfits) as Hwd.
  eexists. split; [exact (size_control_lines ft label lines budget Hvis Htext Hfits Hmin Hb)|].
  split; [reflexivity|]. split; [reflexivity|].
  destruct (getters_of_box
              (set_area
                 (Rectangle.make (Rectangle.x (area label)) (Rectangle.y (area label))
                    (Z.max (Design.widest ft (face label) lines) (width label))
                    (to_u64 (Z.of_nat (List.length lines) * line_height_px ft label)))
                 label)
              (Design.widest ft (face label) lines) (width label)
              (Z.of_nat (List.length lines) * line_height_px ft label))
    as [Gw Gh]; try reflexivity; try assumption.
  split; [exact Gw|]. split; [exact Gh|].
  intros ->. split; [exact Gw | exact Gh].
Qed.

Lemma size_control_box_witness :
  exists l',
    size_control Sample.ft 9 (Sample.shown Sample.two_lines (Some 1%nat) 3 4)
    = Done l'
    /\ get_width_of_control l' = 14
    /\ get_height_of_control l' = 32.
Proof.
  destruct (size_control_box Sample.ft
              (Sample.shown Sample.two_lines (Some 1%nat) 3 4)
              ["aj"%string; "a"%string] 9)
    as (l' & H & _ & _ & Hw & Hh & _).
  - reflexivity.
  - reflexivity.
  - repeat constructor; vm_compute; discriminate.
  - vm_compute. reflexivity.
  - vm_compute. lia.
  - exists l'. split; [exact H|]. split; [exact Hw | exact Hh].
Defined.

(** ** The cached box *)

Section Box.

Variable ft : FreeType.

(** Measuring looks at the face of the label, at nothing else of it. *)
Lemma width_of_line_loop_face l1 l2 :
  face l1 = face l2 ->
  forall budget text width,
    width_of_line_loop ft budget l1 text width
    = width_of_line_loop ft budget l2 text width.
Proof.
  intros Hf. induction budget as [|budget IH]; intros text width; [reflexivity|].
  simpl. rewrite Hf.
  destruct text as [|c rest]; [reflexivity|].
  destruct (Ascii.eqb c newline); [reflexivity|].
  destruct (FT_Load_Char ft (face l2) c); apply IH.
Qed.

Lemma size_control_loop_face l1 l2 :
  face l1 = face l2 ->
  forall budget text w h,
    size_control_loop ft budget l1 text w h
    = size_control_loop ft budget l2 text w h.
Proof.
  intros Hf. induction budget as [|budget IH]; intros text w h; [reflexivity|].
  cbn [size_control_loop].
  destruct text as [[|c rest]|]; try reflexivity.
  unfold width_of_line, line_height_px.
  rewrite (width_of_line_loop_face l1 l2 Hf), Hf.
  destruct (width_of_line_loop ft (S budget) l2 (String c rest) 0); cbn [bind];
    auto.
Qed.

(** The box depends on the text, the face and the least width only. *)
Lemma size_control_agree l1 l2 budget l1' :
  is_hidden l1 = false -> is_hidden l2 = false ->
  text l1 = text l2 -> face l1 = face l2 -> width l1 = width l2 ->
  size_control ft budget l1 = Done l1' ->
  exists l2',
    size_control ft budget l2 = Done l2'
    /\ get_width_of_control l2' = get_width_of_control l1'
    /\ get_height_of_control l2' = get_height_of_control l1'.
Proof.
  unfold size_control. intros H1 H2 Ht Hf Hw H.
  rewrite H1 in H. rewrite H2.
  rewrite <- (size_control_loop_face l1 l2 Hf), <- Ht, <- Hw.
  destruct (size_control_loop ft budget l1 (text l1) 0 0) as [[w h]| |];
    try discriminate.
  cbn [bind] in *. injection H as <-. eexists. split; [reflexivity|].
  split; reflexivity.
Qed.

(** Measuring again what has just been measured changes nothing. *)
Lemma size_control_settled budget label label' :
  size_control ft budget label = Done label' ->
  size_control ft budget label' = Done label'.
Proof.
  unfold size_control. intros H.
  destruct (is_hidden label) eqn:Hh.
  - injection H as <-. now rewrite Hh.
  - destruct (size_control_loop ft budget label (text label) 0 0) as [[w h]| |] eqn:E;
      try discriminate.
    cbn [bind] in H. injection H as <-.
    cbn. rewrite Hh.
    rewrite (size_control_loop_face _ label) by reflexivity.
    rewrite E. reflexivity.
Qed.

Lemma size_control_keeps budget label label' :
  size_control ft budget label = Done label' ->
  is_hidden label' = is_hidden label /\ display label' = display label
  /\ text label' = text label /\ face label' = face label
  /\ width label' = width label
  /\ Rectangle.x (area label') = Rectangle.x (area label)
  /\ Rectangle.y (area label') = Rectangle.y (area label).
Proof.
  unfold size_control. intros H.
  destruct (is_hidden label) eqn:Hh.
  - injection H as <-. auto 10.
  - destruct (size_control_loop ft budget label (text label) 0 0) as [[w h]| |];
      try discriminate.
    cbn [bind] in H. injection H as <-. cbn. auto 10.
Qed.

Lemma set_is_hidden_same label :
  set_is_hidden (is_hidden label) label = label.
Proof. now destruct label. Qed.

(** [trigger_redraw] with [adjust_size] leaves a right box behind. *)
Lemma trigger_redraw_adjusted budget label label' calls :
  trigger_redraw ft budget label true = Done (label', calls) ->
  box_valid ft label'.
Proof.
  unfold trigger_redraw, box_valid. intros H Hvis Hd.
  destruct (is_hidden label) eqn:Hh.
  - injection H as <- <-. congruence.
  - destruct (display label) as [d|] eqn:Hdisp.
    + destruct (size_control ft budget label) as [l| |] eqn:E; try discriminate.
      cbn [bind] in H. injection H as <- <-.
      exists budget. eapply size_control_settled; eassumption.
    + injection H as <- <-. congruence.
Qed.

(** What [trigger_redraw] asks of the display: the box as it was on entry,
    when the label is shown on a display, else nothing. *)
Lemma trigger_redraw_calls budget label adjust label' calls :
  trigger_redraw ft budget label adjust = Done (label', calls) ->
  calls = match is_hidden label, display label with
          | false, Some d => [(d, area label)]
          | _, _ => []
          end.
Proof.
  unfold trigger_redraw. intros H.
  destruct (is_hidden label); [now injection H as <- <-|].
  destruct (display label) as [d|]; [|now injection H as <- <-].
  destruct (if adjust then size_control ft budget label else Done label);
    try discriminate.
  cbn [bind] in H. now injection H as <- <-.
Qed.

(** The colour is no part of the measure. *)
Lemma box_current_set_color label r g b a :
  box_current ft label -> box_current ft (set_color r g b a label).
Proof.
  intros [budget H]. exists budget. revert H. unfold size_control.
  rewrite (size_control_loop_face (set_color r g b a label) label) by reflexivity.
  destruct label as [d ar al w f t r0 g0 b0 a0 hid]. cbn.
  destruct hid; [reflexivity|].
  destruct (size_control_loop ft budget _ t 0 0) as [[w' h']| |];
    try discriminate.
  cbn [bind]. unfold set_area. cbn. intros H. injection H as H.
  now rewrite H.
Qed.

End Box.

(** ** Showing the label and setting its properties *)

Section Control.

Variable ft : FreeType.

(** The label as [show_control] hands it to [size_control]. *)
Lemma show_control_result budget label d x y label' calls :
  show_control ft budget label d x y = Done (label', calls) ->
  size_control ft budget label' = Done label'
  /\ is_hidden label' = false /\ display label' = d
  /\ Rectangle.x (area label') = x /\ Rectangle.y (area label') = y
  /\ text label' = text label /\ face label' = face label
  /\ width label' = width label
  /\ calls = match d with Some d => [(d, area label)] | None => [] end.
Proof.
  unfold show_control. intros H.
  destruct (size_control ft budget _) as [l0| |] eqn:E; try discriminate.
  cbn [bind] in H.
  destruct (size_control_keeps ft _ _ _ E) as (Hh & Hd & Ht & Hf & Hw & Hx & Hy).
  cbn in Hh, Hd, Ht, Hf, Hw, Hx, Hy.
  rewrite Hh, Hd in H. rewrite <- Hh in H at 1.
  rewrite set_is_hidden_same in H. injection H as <- <-.
  repeat split; auto.
  eapply size_control_settled; eassumption.
Qed.

(** A label whose text fits is shown without ado. *)
Lemma show_control_returns budget label d x y lines :
  text label = Some (join_lines lines) ->
  Forall (fits ft label) lines ->
  width label < 2 ^ 63 ->
  (String.length (join_lines lines) < budget)%nat ->
  exists label', exists calls,
    show_control ft budget label d x y = Done (label', calls).
Proof.
  intros Ht Hfits Hw Hb. unfold show_control.
  destruct (size_control_box ft
              (set_is_hidden false
                 (set_area (Rectangle.make x y
                              (Rectangle.width (area (set_display d label)))
                              (Rectangle.height (area (set_display d label))))
                           (set_display d label)))
              lines budget) as (l0 & E & _); auto.
  rewrite E. cbn [bind]. eauto.
Qed.

End Control.

(** C4, as the design document has it, fails: a label that had the box
    0x0 at (0, 0) and is shown at (5, 7) gets the box 14x16 at (5, 7), and
    the repaint asked of the display is that of the old box. *)
Lemma show_control_damage_is_not_new_box :
  area (Sample.titled "aj") = Rectangle.make 0 0 0 0
  /\ show_control Sample.ft 9 (Sample.titled "aj") (Some 1%nat) 5 7
     = Done (set_area (Rectangle.make 5 7 14 16)
               (set_is_hidden false
                  (set_display (Some 1%nat) (Sample.titled "aj"))),
             [(1%nat, Rectangle.make 0 0 0 0)])
  /\ Rectangle.make 0 0 0 0 <> Rectangle.make 5 7 14 16.
Proof.
  repeat split; try (vm_compute; reflexivity). discriminate.
Qed.

(** C4 (amended): whenever [show_control] returns, the repaint it has asked
    of the display is that of the box the label had before the call (old
    position, old size), and none when no display is given; the label is
    then visible at the new position with a freshly measured box.  It does
    return for every text whose lines fit. *)
Theorem show_control_repaints_old_box ft budget label d x y :
  (forall label' calls,
      show_control ft budget label d x y = Done (label', calls) ->
      calls = match d with Some d => [(d, area label)] | None => [] end
      /\ is_hidden label' = false
      /\ Rectangle.x (area label') = x /\ Rectangle.y (area label') = y
      /\ box_current ft label')
  /\ (forall lines,
        text label = Some (join_lines lines) ->
        Forall (fits ft label) lines ->
        width label < 2 ^ 63 ->
        (String.length (join_lines lines) < budget)%nat ->
        exists label', exists calls,
          show_control ft budget label d x y = Done (label', calls)).
Proof.
  split.
  - intros label' calls H.
    destruct (show_control_result ft _ _ _ _ _ _ _ H)
      as (Hs & Hh & _ & Hx & Hy & _ & _ & _ & Hc).
    repeat split; auto. now exists budget.
  - intros lines. apply show_control_returns.
Qed.

Lemma show_control_repaints_old_box_witness :
  exists label',
    show_control Sample.ft 9 (Sample.shown "aj" (Some 1%nat) 5 7) (Some 2%nat) 1 1
    = Done (label', [(2%nat, Rectangle.make 5 7 14 16)])
    /\ area label' = Rectangle.make 1 1 14 16.
Proof.
  destruct (show_control_repaints_old_box Sample.ft 9
              (Sample.shown "aj" (Some 1%nat) 5 7) (Some 2%nat) 1 1) as [Hold Hret].
  destruct (Hret ["aj"%string]) as (label' & calls & H).
  - reflexivity.
  - repeat constructor; vm_compute; discriminate.
  - vm_compute. reflexivity.
  - vm_compute. lia.
  - destruct (Hold label' calls H) as (Hc & _).
    subst calls. exists label'. split; [exact H|].
    pose proof H as H'. vm_compute in H'. injection H' as <-. reflexivity.
Defined.

(** C9, as the design document has it, fails: a label shown without a
    display is visible, and setting its text then leaves the box of the old
    text in place. *)
Lemma box_stale_when_shown_without_display :
  box_valid_when_visible Sample.ft (Sample.shown "a" None 0 0)
  /\ invoke Sample.ft 9 (Op_set_text (Some "aa"%string)) (Sample.shown "a" None 0 0)
     = Done (set_text (Some "aa"%string) (Sample.shown "a" None 0 0), [])
  /\ is_hidden (set_text (Some "aa"%string) (Sample.shown "a" None 0 0)) = false
  /\ ~ box_valid_when_visible Sample.ft
        (set_text (Some "aa"%string) (Sample.shown "a" None 0 0)).
Proof.
  assert (Hvis : is_hidden (set_text (Some "aa"%string) (Sample.shown "a" None 0 0))
                 = false) by (vm_compute; reflexivity).
  split; [|split; [|split]].
  - intros _. exists 9%nat. vm_compute. reflexivity.
  - vm_compute. reflexivity.
  - exact Hvis.
  - intros H. destruct (H Hvis) as [budget Hb].
    assert (H9 : size_control Sample.ft 9
                   (set_text (Some "aa"%string) (Sample.shown "a" None 0 0))
                 = Done (set_area (Rectangle.make 0 0 16 16)
                           (set_text (Some "aa"%string) (Sample.shown "a" None 0 0))))
      by (vm_compute; reflexivity).
    pose proof (size_control_one_result _ _ _ _ _ _ Hb H9) as Heq.
    apply (f_equal get_width_of_control) in Heq.
    vm_compute in Heq. discriminate Heq.
Qed.

(** C9 (amended): every operation of the interface, when it returns, keeps
    the cached box equal to the measure of the current text, font size and
    least width for a label that is visible and has a display; and after
    [show_control] the cached box is current whatever the display, so that
    measuring any visible label with the same text, face and least width
    gives the width and height that [get_width_of_control] and
    [get_height_of_control] report. *)
Theorem box_valid_preserved ft budget op label label' calls :
  box_valid ft label ->
  invoke ft budget op label = Done (label', calls) ->
  box_valid ft label'
  /\ (forall d x y, op = Op_show d x y ->
        box_current ft label'
        /\ forall other,
            is_hidden other = false ->
            text other = text label' -> face other = face label' ->
            width other = width label' ->
            exists m,
              size_control ft budget other = Done m
              /\ get_width_of_control m = get_width_of_control label'
              /\ get_height_of_control m = get_height_of_control label').
Proof.
  intros Hinv H.
  destruct op as [d x y| |pb x y w h|t|a|w|fontdesc|r g b a]; cbn [invoke] in H.
  - destruct (show_control_result ft _ _ _ _ _ _ _ H)
      as (Hs & Hh & _ & _ & _ & _ & _ & _ & _).
    assert (Hcur : box_current ft label') by now exists budget.
    split; [intros _ _; exact Hcur|].
    intros d' x' y' _. split; [exact Hcur|].
    intros other Ho Ht Hf Hw.
    apply (size_control_agree ft label' other budget label'); auto.
  - injection H as <- <-.
    split; [|discriminate]. intros Hvis. discriminate Hvis.
  - destruct (draw_control ft budget label pb x y w h); try discriminate.
    cbn [bind] in H. injection H as <- <-. split; [assumption|discriminate].
  - split; [|discriminate]. unfold set_text_for_control in H.
    destruct (text label), t; try discriminate;
      try (eapply trigger_redraw_adjusted; eassumption).
    injection H as <- <-. assumption.
  - split; [|discriminate]. unfold set_alignment_for_control in H.
    destruct (alignment_eqb (alignment label) a).
    + injection H as <- <-. assumption.
    + eapply trigger_redraw_adjusted; eassumption.
  - split; [|discriminate]. unfold set_width_for_control in H.
    destruct (width label =? w).
    + injection H as <- <-. assumption.
    + eapply trigger_redraw_adjusted; eassumption.
  - split; [|discriminate]. unfold set_font_for_control in H.
    eapply trigger_redraw_adjusted; eassumption.
  - split; [|discriminate]. unfold set_color_for_control, trigger_redraw in H.
    assert (Hl : label' = set_color r g b a label).
    { cbn in H. destruct (is_hidden label); [now injection H as <- _|].
      destruct (display label); now injection H as <- _. }
    subst label'. intros Hvis Hd.
    apply box_current_set_color. apply Hinv; assumption.
Qed.

Lemma box_valid_preserved_witness :
  invoke Sample.ft 9 (Op_set_text (Some "aa"%string))
         (Sample.shown "a" (Some 1%nat) 0 0)
  = Done (set_area (Rectangle.make 0 0 16 16)
            (set_text (Some "aa"%string) (Sample.shown "a" (Some 1%nat) 0 0)),
          [(1%nat, Rectangle.make 0 0 8 16)])
  /\ box_valid Sample.ft
       (set_area (Rectangle.make 0 0 16 16)
          (set_text (Some "aa"%string) (Sample.shown "a" (Some 1%nat) 0 0))).
Proof.
  assert (Hrun : invoke Sample.ft 9 (Op_set_text (Some "aa"%string))
                        (Sample.shown "a" (Some 1%nat) 0 0)
                 = Done (set_area (Rectangle.make 0 0 16 16)
                           (set_text (Some "aa"%string)
                              (Sample.shown "a" (Some 1%nat) 0 0)),
                         [(1%nat, Rectangle.make 0 0 8 16)]))
    by (vm_compute; reflexivity).
  split; [exact Hrun|].
  refine (proj1 (box_valid_preserved Sample.ft 9 (Op_set_text (Some "aa"%string))
                   (Sample.shown "a" (Some 1%nat) 0 0) _ _ _ Hrun)).
  intros _ _. exists 9%nat. vm_compute. reflexivity.
Defined.

(** C7, as the design document has it, fails: on a hidden label
    [set_font_for_control] changes the size of the face and does nothing
    else; the box stays 0x0 and no repaint is asked for. *)
Lemma set_font_for_control_hidden_is_silent :
  is_hidden (Sample.titled "aj") = true
  /\ set_font_for_control Sample.ft 9 (Sample.titled "aj") "Sans 14"
     = Done (set_face (Char_Size 896 0 72 0) (Sample.titled "aj"), [])
  /\ area (set_face (Char_Size 896 0 72 0) (Sample.titled "aj"))
     = Rectangle.make 0 0 0 0.
Proof.
  repeat split; vm_compute; reflexivity.
Qed.

(** C7 (amended): the descriptor Sans 14 asks the rasteriser for 14 points
    at 72 dpi, Sans 14px for 14 pixels, Sans and Sans bogus for the default
    of 25 points at 72 dpi, and a request that is refused leaves the face as
    it was.  After that, whatever the descriptor and whether or not the
    request was granted, a label that is visible on a display and whose
    lines fit at the resulting size comes back with its box measured at that
    size and with the repaint of the box it had on entry asked for; whenever
    the call on such a label returns at all, that repaint has been asked for
    and the box is current.  A label that is hidden or has no display gets
    neither. *)
Theorem set_font_for_control_effect ft budget label fontdesc :
  (face_for_font ft (face label) "Sans 14"
     = snd (FT_Set_Char_Size ft (face label) (14 * 64) 0 72 0)
   /\ face_for_font ft (face label) "Sans 14px"
     = snd (FT_Set_Pixel_Sizes ft (face label) 0 14)
   /\ face_for_font ft (face label) "Sans"
     = snd (FT_Set_Char_Size ft (face label) (25 * 64) 0 72 0)
   /\ face_for_font ft (face label) "Sans bogus"
     = snd (FT_Set_Char_Size ft (face label) (25 * 64) 0 72 0))
  /\ (forall w h hres vres,
        snd (FT_Set_Char_Size ft (face label) w h hres vres)
        = if size_granted ft (Char_Size w h hres vres)
          then Char_Size w h hres vres else face label)
  /\ (forall w h,
        snd (FT_Set_Pixel_Sizes ft (face label) w h)
        = if size_granted ft (Pixel_Sizes w h)
          then Pixel_Sizes w h else face label)
  /\ (forall d lines,
        is_hidden label = false -> display label = Some d ->
        text label = Some (join_lines lines) ->
        Forall (fits ft (set_face (face_for_font ft (face label) fontdesc) label))
               lines ->
        width label < 2 ^ 63 ->
        (String.length (join_lines lines) < budget)%nat ->
        exists label',
          set_font_for_control ft budget label fontdesc
          = Done (label', [(d, area label)])
          /\ face label' = face_for_font ft (face label) fontdesc
          /\ get_width_of_control label'
             = Z.max (Design.widest ft (face label') lines) (width label)
          /\ get_height_of_control label'
             = to_s64 (Z.of_nat (List.length lines) * line_height_px ft label')
          /\ Rectangle.x (area label') = Rectangle.x (area label)
          /\ Rectangle.y (area label') = Rectangle.y (area label)
          /\ box_current ft label')
  /\ (forall d label' calls,
        is_hidden label = false -> display label = Some d ->
        set_font_for_control ft budget label fontdesc = Done (label', calls) ->
        calls = [(d, area label)]
        /\ face label' = face_for_font ft (face label) fontdesc
        /\ box_current ft label')
  /\ (is_hidden label = true \/ display label = None ->
      set_font_for_control ft budget label fontdesc
      = Done (set_face (face_for_font ft (face label) fontdesc) label, [])).
Proof.
  split; [repeat split|].
  split; [intros w h hres vres; unfold FT_Set_Char_Size;
          now destruct (size_granted ft (Char_Size w h hres vres))|].
  split; [intros w h; unfold FT_Set_Pixel_Sizes;
          now destruct (size_granted ft (Pixel_Sizes w h))|].
  split; [|split].
  - intros d lines Hh Hd Ht Hfits Hmin Hb.
    set (l0 := set_face (face_for_font ft (face label) fontdesc) label) in *.
    pose proof (widest_range ft l0 lines Hfits) as Hwd.
    pose proof (size_control_lines ft l0 lines budget Hh Ht Hfits Hmin Hb) as Hs.
    destruct (getters_of_box
                (set_area
                   (Rectangle.make (Rectangle.x (area l0)) (Rectangle.y (area l0))
                      (Z.max (Design.widest ft (face l0) lines) (width l0))
                      (to_u64 (Z.of_nat (List.length lines) * line_height_px ft l0)))
                   l0)
                (Design.widest ft (face l0) lines) (width l0)
                (Z.of_nat (List.length lines) * line_height_px ft l0))
      as [Gw Gh]; try reflexivity; try assumption.
    eexists. split; [|split; [|split; [|split; [|split; [|split]]]]].
    + unfold set_font_for_control, trigger_redraw. fold l0.
      change (is_hidden l0) with (is_hidden label).
      change (display l0) with (display label).
      rewrite Hh, Hd, Hs. reflexivity.
    + reflexivity.
    + exact Gw.
    + exact Gh.
    + reflexivity.
    + reflexivity.
    + exists budget. eapply size_control_settled. exact Hs.
  - intros d label' calls Hh Hd H. unfold set_font_for_control in H.
    split; [|split].
    + rewrite (trigger_redraw_calls ft _ _ _ _ _ H). cbn. now rewrite Hh, Hd.
    + unfold trigger_redraw in H. cbn in H. rewrite Hh, Hd in H.
      destruct (size_control ft budget _) as [l1| |] eqn:E; try discriminate.
      cbn [bind] in H. injection H as <- _.
      now destruct (size_control_keeps ft _ _ _ E) as (_ & _ & _ & Hf & _).
    + pose proof (trigger_redraw_adjusted ft _ _ _ _ H) as Hv.
      destruct (size_control_keeps ft budget
                  (set_face (face_for_font ft (face label) fontdesc) label) label')
        as (Hh' & Hd' & _).
      { unfold trigger_redraw in H. cbn in H. rewrite Hh, Hd in H.
        destruct (size_control ft budget _) as [l1| |]; try discriminate.
        cbn [bind] in H. now injection H as <- _. }
      apply Hv; cbn in Hh', Hd'; congruence.
  - intros H. unfold set_font_for_control, trigger_redraw. cbn.
    destruct H as [-> | ->]; [reflexivity|].
    now destruct (is_hidden label).
Qed.

Lemma set_font_for_control_effect_witness :
  is_hidden (Sample.shown "aj" (Some 1%nat) 5 7) = false
  /\ display (Sample.shown "aj" (Some 1%nat) 5 7) = Some 1%nat
  /\ (exists label',
        set_font_for_control Sample.ft 9 (Sample.shown "aj" (Some 1%nat) 5 7)
                             "Sans 14px"
        = Done (label', [(1%nat, Rectangle.make 5 7 14 16)])
        /\ face label' = Pixel_Sizes 0 14
        /\ get_width_of_control label' = 12
        /\ get_height_of_control label' = 14)
  /\ (exists label',
        set_font_for_control Sample.ft 9 (Sample.shown "aj" (Some 1%nat) 5 7)
                             "Sans 0"
        = Done (label', [(1%nat, Rectangle.make 5 7 14 16)])
        /\ face label' = Char_Size 768 0 96 0
        /\ get_width_of_control label' = 14
        /\ get_height_of_control label' = 16).
Proof.
  assert (Hh : is_hidden (Sample.shown "aj" (Some 1%nat) 5 7) = false)
    by (vm_compute; reflexivity).
  assert (Hd : display (Sample.shown "aj" (Some 1%nat) 5 7) = Some 1%nat)
    by (vm_compute; reflexivity).
  split; [exact Hh|]. split; [exact Hd|]. split.
  - destruct (set_font_for_control_effect Sample.ft 9
                (Sample.shown "aj" (Some 1%nat) 5 7) "Sans 14px")
      as (_ & _ & _ & H & _).
    destruct (H 1%nat ["aj"%string] Hh Hd) as (l & Hrun & Hf & Hw & Hht & _).
    + vm_compute. reflexivity.
    + repeat constructor; vm_compute; discriminate.
    + vm_compute. reflexivity.
    + vm_compute. lia.
    + exists l. split; [exact Hrun|]. split; [exact Hf|].
      split.
      * rewrite Hw, Hf. vm_compute. reflexivity.
      * rewrite Hht. unfold line_height_px. rewrite Hf. vm_compute. reflexivity.
  - destruct (set_font_for_control_effect Sample.ft 9
                (Sample.shown "aj" (Some 1%nat) 5 7) "Sans 0")
      as (_ & _ & _ & H & _).
    destruct (H 1%nat ["aj"%string] Hh Hd) as (l & Hrun & Hf & Hw & Hht & _).
    + vm_compute. reflexivity.
    + repeat constructor; vm_compute; discriminate.
    + vm_compute. reflexivity.
    + vm_compute. lia.
    + exists l. split; [exact Hrun|]. split; [exact Hf|].
      split.
      * rewrite Hw, Hf. vm_compute. reflexivity.
      * rewrite Hht. unfold line_height_px. rewrite Hf. vm_compute. reflexivity.
Defined.

(** C10, as the design document has it, fails: handing no text to
    [set_text_for_control] on a label that holds a text duplicates a NULL
    string. *)
Lemma set_text_for_control_null_over_text :
  text (Sample.titled "a") = Some "a"%string
  /\ set_text_for_control Sample.ft 9 (Sample.titled "a") None = Undefined.
Proof.
  split; vm_compute; reflexivity.
Qed.

(** C10 (amended): [set_text_for_control] wants a string.  Given one, on a
    hidden label it stores it and returns.  Given none, it returns with
    nothing changed when the label has no text either, and is undefined when
    the label holds a text. *)
Theorem set_text_for_control_absent ft budget label :
  (text label = None ->
   set_text_for_control ft budget label None = Done (label, []))
  /\ (text label <> None ->
      set_text_for_control ft budget label None = Undefined)
  /\ (is_hidden label = true ->
      forall s, set_text_for_control ft budget label (Some s)
                = Done (set_text (Some s) label, [])).
Proof.
  unfold set_text_for_control. split; [|split].
  - now intros ->.
  - destruct (text label); [reflexivity | congruence].
  - intros Hh s. unfold trigger_redraw. cbn. rewrite Hh.
    now destruct (text label).
Qed.

Lemma set_text_for_control_absent_witness :
  text Sample.fresh = None
  /\ set_text_for_control Sample.ft 9 Sample.fresh None = Done (Sample.fresh, [])
  /\ text (Sample.titled "a") <> None
  /\ set_text_for_control Sample.ft 9 (Sample.titled "a") None = Undefined
  /\ is_hidden Sample.fresh = true
  /\ set_text_for_control Sample.ft 9 Sample.fresh (Some "a"%string)
     = Done (set_text (Some "a"%string) Sample.fresh, []).
Proof.
  assert (Ht : text (Sample.titled "a") <> None) by (vm_compute; discriminate).
  split; [reflexivity|].
  split; [apply (set_text_for_control_absent Sample.ft 9 Sample.fresh); reflexivity|].
  split; [exact Ht|].
  split; [apply (set_text_for_control_absent Sample.ft 9 (Sample.titled "a")); exact Ht|].
  split; [reflexivity|].
  apply (set_text_for_control_absent Sample.ft 9 Sample.fresh). reflexivity.
Defined.

(** ** Drawing *)

Section Drawing.

Variable ft : FreeType.

(** Behind characters that load, one that does not keeps [width_of_line]
    from returning. *)
Lemma width_of_line_loop_spins label pre c rest :
  newline_free pre = true ->
  loads ft (face label) pre = true ->
  Ascii.eqb c newline = false ->
  FT_Load_Char ft (face label) c = None ->
  forall budget width,
    width_of_line_loop ft budget label (pre ++ String c rest) width = Spinning.
Proof.
  intros Hnl Hld Hc Hfail.
  induction pre as [|a pre IH]; intros budget width.
  - now apply width_of_line_loop_stuck.
  - simpl in Hnl, Hld. apply andb_prop in Hnl as [Ha Hnl].
    apply negb_true_iff in Ha.
    destruct (load_char ft (face label) a) as [g|] eqn:Hg; [|discriminate].
    destruct budget as [|budget]; [reflexivity|].
    cbn [append width_of_line_loop]. unfold FT_Load_Char at 1.
    rewrite Ha, Hg. now apply IH.
Qed.

(** The same for the inner loop of [draw_control]. *)
Lemma draw_line_spins label pre c rest :
  newline_free pre = true ->
  loads ft (face label) pre = true ->
  Ascii.eqb c newline = false ->
  FT_Load_Char ft (face label) c = None ->
  forall budget pen_x pen_y target,
    draw_line ft budget label (pre ++ String c rest) pen_x pen_y target
    = Spinning.
Proof.
  intros Hnl Hld Hc Hfail.
  induction pre as [|a pre IH].
  - induction budget as [|budget IHb]; intros pen_x pen_y target;
      [reflexivity|].
    cbn [append draw_line]. rewrite Hc, Hfail. apply IHb.
  - simpl in Hnl, Hld. apply andb_prop in Hnl as [Ha Hnl].
    apply negb_true_iff in Ha.
    destruct (load_char ft (face label) a) as [g|] eqn:Hg; [|discriminate].
    intros [|budget] pen_x pen_y target; [reflexivity|].
    cbn [append draw_line]. unfold FT_Load_Char at 1.
    rewrite Ha, Hg. now apply IH.
Qed.

(** A visible label whose first line has a character that does not load
    keeps [draw_control] busy for ever, once the draw is not turned away
    at the door. *)
Lemma draw_control_spins label pre c rest pixel_buffer x y w h :
  is_hidden label = false ->
  outside label x y w h = false ->
  buf_height pixel_buffer <> 0 ->
  text label = Some (pre ++ String c rest)%string ->
  newline_free pre = true ->
  loads ft (face label) pre = true ->
  Ascii.eqb c newline = false ->
  FT_Load_Char ft (face label) c = None ->
  forall budget,
    draw_control ft budget label pixel_buffer x y w h = Spinning.
Proof.
  intros Hh Ho Hb Ht Hnl Hld Hc Hfail budget.
  unfold draw_control. rewrite Hh, Ho, Ht.
  apply Z.eqb_neq in Hb. rewrite Hb.
  destruct budget as [|budget]; [reflexivity|].
  cbn [draw_lines].
  assert (Hne : exists a tl, (pre ++ String c rest)%string = String a tl).
  { destruct pre; simpl; eauto. }
  destruct Hne as (a & tl & Hne). rewrite Hne at 1.
  unfold width_of_line.
  destruct (alignment label);
    rewrite ?(width_of_line_loop_spins label pre c rest Hnl Hld Hc Hfail);
    cbn [bind]; rewrite ?draw_line_spins by assumption; reflexivity.
Qed.

(** The early way out of [draw_control] for boxes that lie apart. *)
Lemma apart_outside label x y w h :
  all_small (area label) x y w h ->
  apart (area label) x y w h ->
  outside label x y w h = true.
Proof.
  unfold all_small, small, apart, outside.
  intros (Hx & Hy & Hw & Hh & Hax & Hay & Haw & Hah) H.
  rewrite (to_s64_id w), (to_s64_id h) by (unfold is_s64; lia).
  rewrite (to_s64_id (Rectangle.width (area label))),
          (to_s64_id (Rectangle.height (area label))) by (unfold is_s64; lia).
  rewrite !to_s64_id by (unfold is_s64; lia).
  destruct (Z.gtb_spec (Rectangle.x (area label)) (x + w)); [reflexivity|].
  destruct (Z.gtb_spec (Rectangle.y (area label)) (y + h)); [reflexivity|].
  destruct (Z.ltb_spec (Rectangle.x (area label) + Rectangle.width (area label)) x);
    [reflexivity|].
  destruct (Z.ltb_spec (Rectangle.y (area label) + Rectangle.height (area label)) y);
    [reflexivity|].
  lia.
Qed.

(** A damaged rectangle that meets the box, be it at an edge or a corner
    only, does not stop the draw. *)
Lemma meet_not_outside label x y w h :
  all_small (area label) x y w h ->
  meet (area label) x y w h ->
  outside label x y w h = false.
Proof.
  unfold all_small, small, meet, outside.
  intros (Hx & Hy & Hw & Hh & Hax & Hay & Haw & Hah) (M1 & M2 & M3 & M4).
  rewrite (to_s64_id w), (to_s64_id h) by (unfold is_s64; lia).
  rewrite (to_s64_id (Rectangle.width (area label))),
          (to_s64_id (Rectangle.height (area label))) by (unfold is_s64; lia).
  rewrite !to_s64_id by (unfold is_s64; lia).
  destruct (Z.gtb_spec (Rectangle.x (area label)) (x + w)); [lia|].
  destruct (Z.gtb_spec (Rectangle.y (area label)) (y + h)); [lia|].
  destruct (Z.ltb_spec (Rectangle.x (area label) + Rectangle.width (area label)) x);
    [lia|].
  destruct (Z.ltb_spec (Rectangle.y (area label) + Rectangle.height (area label)) y);
    [lia|].
  reflexivity.
Qed.

(** The draw of a visible label that is not turned away: that of its whole
    text, from the first line at the top of the box. *)
Lemma draw_control_in_full label pixel_buffer x y w h budget :
  is_hidden label = false ->
  buf_height pixel_buffer <> 0 ->
  outside label x y w h = false ->
  draw_control ft budget label pixel_buffer x y w h
  = match text label with
    | None => Undefined
    | Some cur_c =>
        draw_lines ft budget label cur_c
          (to_s64 (to_s64 (Z.shiftl (Rectangle.y (area label)) 6)
                   + ascender (size_metrics ft (face label))))
          pixel_buffer
    end.
Proof.
  intros Hvis Hrows Hin. unfold draw_control.
  apply Z.eqb_neq in Hrows. now rewrite Hvis, Hin, Hrows.
Qed.

End Drawing.

(** C2 (fails on the code): in [draw_control] a character whose glyph
    cannot be loaded stops the drawing for good; [continue] goes back to the
    test of the loop with the same character.  On the visible label with the
    text a?b no budget of iterations is enough for the draw to return. *)
Theorem draw_control_spins_on_failed_load :
  forall budget,
    draw_control Sample.ft budget Sample.unmeasured (Sample.blank 30 30) 0 0 30 30
    = Spinning.
Proof.
  apply (draw_control_spins Sample.ft Sample.unmeasured "a" "?" "b");
    try (vm_compute; reflexivity).
  vm_compute. discriminate.
Qed.

(** C5, as the design document has it, fails: the box of the label starts
    at (5, 7), the damaged rectangle [0, 5) x [0, 7) ends there, and the
    whole label is drawn all the same. *)
Lemma draw_control_draws_when_clip_touches :
  area Sample.yellow = Rectangle.make 5 7 14 16
  /\ disjoint_half_open (area Sample.yellow) 0 0 5 7
  /\ draw_control Sample.ft 9 Sample.yellow (Sample.blank 30 30) 0 0 5 7
     = Done (store_pixel (store_pixel (Sample.blank 30 30) 215 4294967040)
                         223 4294967040).
Proof.
  split; [vm_compute; reflexivity|]. split.
  - left. vm_compute. discriminate.
  - vm_compute. reflexivity.
Qed.

(** C5 (amended): [draw_control] stores no pixel, and returns at once, when
    the label is hidden, or the target has no rows, or the box of the label
    and the damaged rectangle, both taken with their far edges, lie apart.
    In every other case, that is whenever the two closed rectangles share a
    point, be it only along an edge or at a corner, a visible label on a
    target with rows is redrawn in full: the draw is that of the whole text
    from the top of the box, the same for every such rectangle. *)
Theorem draw_control_no_store ft budget label pixel_buffer x y w h :
  (is_hidden label = true
   \/ buf_height pixel_buffer = 0
   \/ (all_small (area label) x y w h /\ apart (area label) x y w h) ->
   draw_control ft budget label pixel_buffer x y w h = Done pixel_buffer)
  /\ (apart (area label) x y w h <-> ~ meet (area label) x y w h)
  /\ (is_hidden label = false ->
      buf_height pixel_buffer <> 0 ->
      all_small (area label) x y w h ->
      meet (area label) x y w h ->
      draw_control ft budget label pixel_buffer x y w h
      = match text label with
        | None => Undefined
        | Some cur_c =>
            draw_lines ft budget label cur_c
              (to_s64 (to_s64 (Z.shiftl (Rectangle.y (area label)) 6)
                       + ascender (size_metrics ft (face label))))
              pixel_buffer
        end
      /\ forall x' y' w' h',
          all_small (area label) x' y' w' h' ->
          meet (area label) x' y' w' h' ->
          draw_control ft budget label pixel_buffer x' y' w' h'
          = draw_control ft budget label pixel_buffer x y w h).
Proof.
  split; [|split].
  - unfold draw_control. intros [H | [H | [Hs H]]].
    + now rewrite H.
    + rewrite H. cbn.
      destruct (is_hidden label); [reflexivity|].
      now destruct (outside label x y w h).
    + rewrite (apart_outside label x y w h Hs H).
      now destruct (is_hidden label).
  - unfold apart, meet. lia.
  - intros Hvis Hrows Hs Hm.
    pose proof (draw_control_in_full ft label pixel_buffer x y w h budget Hvis Hrows
                  (meet_not_outside label x y w h Hs Hm)) as Hfull.
    split; [exact Hfull|].
    intros x' y' w' h' Hs' Hm'. rewrite Hfull.
    apply draw_control_in_full; auto using meet_not_outside.
Qed.

Lemma draw_control_no_store_witness :
  apart (area Sample.yellow) 0 0 4 7
  /\ draw_control Sample.ft 9 Sample.yellow (Sample.blank 30 30) 0 0 4 7
     = Done (Sample.blank 30 30)
  /\ draw_control Sample.ft 9 Sample.fresh (Sample.blank 30 30) 0 0 30 30
     = Done (Sample.blank 30 30)
  /\ draw_control Sample.ft 9 Sample.yellow (Sample.blank 30 0) 0 0 30 30
     = Done (Sample.blank 30 0)
  /\ meet (area Sample.yellow) 0 0 5 7
  /\ draw_control Sample.ft 9 Sample.yellow (Sample.blank 30 30) 0 0 5 7
     = draw_control Sample.ft 9 Sample.yellow (Sample.blank 30 30) 5 7 14 16.
Proof.
  assert (Ha : apart (area Sample.yellow) 0 0 4 7)
    by (left; vm_compute; reflexivity).
  assert (Hm : meet (area Sample.yellow) 0 0 5 7)
    by (unfold meet; vm_compute; intuition discriminate).
  split; [exact Ha|]. split; [|split; [|split; [|split; [exact Hm|]]]].
  - apply (proj1 (draw_control_no_store Sample.ft 9 Sample.yellow
                    (Sample.blank 30 30) 0 0 4 7)). right. right.
    split; [|exact Ha].
    unfold all_small, small. vm_compute. intuition discriminate.
  - apply (proj1 (draw_control_no_store Sample.ft 9 Sample.fresh
                    (Sample.blank 30 30) 0 0 30 30)). left. reflexivity.
  - apply (proj1 (draw_control_no_store Sample.ft 9 Sample.yellow
                    (Sample.blank 30 0) 0 0 30 30)). right. left.
    reflexivity.
  - destruct (draw_control_no_store Sample.ft 9 Sample.yellow (Sample.blank 30 30)
                5 7 14 16) as (_ & _ & Hfull).
    destruct Hfull as [_ Hsame].
    + vm_compute. reflexivity.
    + vm_compute. discriminate.
    + unfold all_small, small. vm_compute. intuition discriminate.
    + unfold meet. vm_compute. intuition discriminate.
    + apply Hsame; [|exact Hm].
      unfold all_small, small. vm_compute. intuition discriminate.
Defined.

(** ** Blending *)

Section Blending.

Lemma same_float_eq a b : same_float a b = true -> a = b.
Proof.
  destruct a as [s|s| |s m e], b as [t|t| |t n f]; simpl; try discriminate;
    try reflexivity.
  - intros H. apply Bool.eqb_prop in H. now subst.
  - intros H. apply Bool.eqb_prop in H. now subst.
  - intros H. apply andb_prop in H as [H He]. apply andb_prop in H as [Hs Hm].
    apply Bool.eqb_prop in Hs. apply Pos.eqb_eq in Hm. apply Z.eqb_eq in He.
    now subst.
Qed.

(** A check that passes on the 256 bytes holds of every byte. *)
Lemma for_all_bytes (P : Z -> bool) :
  forallb P bytes = true -> forall z, 0 <= z < 256 -> P z = true.
Proof.
  intros H z Hz. rewrite forallb_forall in H. apply H.
  unfold bytes. rewrite <- (Z2Nat.id z) by lia.
  apply in_map, in_seq. lia.
Qed.

Lemma to_uint8_range f : 0 <= F32.to_uint8 f < 256.
Proof.
  unfold F32.to_uint8. destruct (F32.trunc f) as [z|]; [|lia].
  destruct ((- 2 ^ 31 <=? z) && (z <? 2 ^ 31)); [apply to_u8_range | lia].
Qed.

(** A zero times a byte is that zero. *)
Lemma mul_zero_byte s c :
  0 <= c < 256 -> F32.mul (S754_zero s) (F32.of_int c) = S754_zero s.
Proof.
  intros Hc. apply same_float_eq. revert c Hc.
  apply (for_all_bytes
           (fun c => same_float (F32.mul (S754_zero s) (F32.of_int c)) (S754_zero s))).
  destruct s; vm_compute; reflexivity.
Qed.

(** One times a byte, with a zero added on either side, is the byte. *)
Lemma one_times_byte s d :
  0 <= d < 256 ->
  F32.to_uint8 (F32.add (F32.mul F32.one (F32.of_int d)) (S754_zero s)) = d
  /\ F32.to_uint8 (F32.add (S754_zero s) (F32.mul F32.one (F32.of_int d))) = d.
Proof.
  intros Hd. split; apply Z.eqb_eq; revert d Hd.
  - apply (for_all_bytes
             (fun d => F32.to_uint8 (F32.add (F32.mul F32.one (F32.of_int d))
                                             (S754_zero s)) =? d)).
    destruct s; vm_compute; reflexivity.
  - apply (for_all_bytes
             (fun d => F32.to_uint8 (F32.add (S754_zero s)
                                             (F32.mul F32.one (F32.of_int d))) =? d)).
    destruct s; vm_compute; reflexivity.
Qed.

(** With no opacity a channel keeps the value of the target. *)
Lemma mix_transparent s d c :
  0 <= d < 256 -> 0 <= c < 256 ->
  mix (S754_zero s) (F32.sub F32.one (S754_zero s)) d c = d.
Proof.
  intros Hd Hc. unfold mix. rewrite mul_zero_byte by assumption.
  replace (F32.sub F32.one (S754_zero s)) with F32.one by now destruct s.
  now apply one_times_byte.
Qed.

(** With full opacity a channel takes the value of the label. *)
Lemma mix_opaque d c :
  0 <= d < 256 -> 0 <= c < 256 ->
  mix F32.one (F32.sub F32.one F32.one) d c = c.
Proof.
  intros Hd Hc. unfold mix.
  change (F32.sub F32.one F32.one) with (S754_zero false).
  rewrite mul_zero_byte by assumption.
  now apply one_times_byte.
Qed.

(** Bits set in a left shift and in a number below it do not meet. *)
Lemma lor_shifted a n b :
  0 <= n -> 0 <= b < 2 ^ n -> Z.lor (Z.shiftl a n) b = a * 2 ^ n + b.
Proof.
  intros Hn Hb.
  assert (Hland : Z.land (Z.shiftl a n) b = 0).
  { apply Z.bits_inj'. intros i Hi.
    rewrite Z.land_spec, Z.bits_0.
    destruct (Z.lt_ge_cases i n) as [Hlt | Hge].
    - now rewrite Z.shiftl_spec_low.
    - destruct (Z.eq_dec b 0) as [-> | Hb0].
      + now rewrite Z.bits_0, andb_false_r.
      + rewrite (Z.bits_above_log2 b i), andb_false_r; [reflexivity | lia |].
        apply Z.log2_lt_pow2; [lia|].
        apply Z.lt_le_trans with (2 ^ n); [lia|].
        apply Z.pow_le_mono_r; lia. }
  rewrite <- Z.lxor_lor by assumption.
  rewrite <- Z.add_nocarry_lxor by assumption.
  now rewrite Z.shiftl_mul_pow2.
Qed.

(** The word made of four bytes. *)
Lemma argb_bytes a r g b :
  0 <= a < 256 -> 0 <= r < 256 -> 0 <= g < 256 -> 0 <= b < 256 ->
  argb a r g b = a * 2 ^ 24 + r * 2 ^ 16 + g * 2 ^ 8 + b.
Proof.
  intros Ha Hr Hg Hb. unfold argb.
  rewrite (lor_shifted a 24) by (rewrite ?Z.shiftl_mul_pow2; lia).
  replace (a * 2 ^ 24 + Z.shiftl r 16) with (Z.shiftl (a * 2 ^ 8 + r) 16)
    by (rewrite !Z.shiftl_mul_pow2; lia).
  rewrite (lor_shifted (a * 2 ^ 8 + r) 16) by (rewrite ?Z.shiftl_mul_pow2; lia).
  replace ((a * 2 ^ 8 + r) * 2 ^ 16 + Z.shiftl g 8)
    with (Z.shiftl ((a * 2 ^ 8 + r) * 2 ^ 8 + g) 8)
    by (rewrite !Z.shiftl_mul_pow2; lia).
  rewrite lor_shifted by lia.
  rewrite to_u32_small by lia. lia.
Qed.

(** The three colour bytes of a word are the word below bit 24. *)
Lemma low_bytes dest :
  to_u8 (Z.shiftr dest 16) * 2 ^ 16 + to_u8 (Z.shiftr dest 8) * 2 ^ 8 + to_u8 dest
  = dest mod 2 ^ 24.
Proof.
  unfold to_u8. rewrite !Z.shiftr_div_pow2 by lia.
  change (2 ^ 24) with 16777216. change (2 ^ 16) with 65536.
  change (2 ^ 8) with 256.
  Z.div_mod_to_equations. lia.
Qed.

End Blending.

(** C6, as the design document has it, fails: a glyph pixel without any
    coverage, blended over an opaque black word, leaves a word that is not
    the one that was there; the alpha byte is gone. *)
Lemma blend_transparent_clears_alpha :
  source_alpha Sample.yellow 0 = S754_zero false
  /\ blend Sample.yellow 0 4278190080 = 0
  /\ 0 <> 4278190080.
Proof.
  repeat split; try (vm_compute; reflexivity). discriminate.
Qed.

(** C6 (amended): blending with a source alpha of zero, as it is for a
    coverage of 0 under any finite opacity, keeps the three colour bytes of
    the target word and clears its alpha byte, so the word stays as it was
    exactly when its alpha byte was 0 already; blending with opacity 1 over
    a coverage of 255 gives alpha 255 and the colour bytes of the label;
    and in every blend the alpha byte of the result is the byte of the
    source alpha times 255, whatever the target held. *)
Theorem blend_cases label coverage dest :
  (coverage = 0 -> F32.is_finite (alpha label) = true ->
   F32.is_zero (source_alpha label coverage) = true)
  /\ (F32.is_zero (source_alpha label coverage) = true ->
      blend label coverage dest = dest mod 2 ^ 24
      /\ (0 <= dest < 2 ^ 32 ->
          (blend label coverage dest = dest <-> dest < 2 ^ 24)))
  /\ (alpha label = F32.one -> coverage = 255 ->
      blend label coverage dest
      = 255 * 2 ^ 24 + color_byte (red label) * 2 ^ 16
        + color_byte (green label) * 2 ^ 8 + color_byte (blue label))
  /\ Z.shiftr (blend label coverage dest) 24
     = F32.to_uint8 (F32.mul (source_alpha label coverage) (F32.of_int 255)).
Proof.
  pose proof (to_u8_range (Z.shiftr dest 16)) as Hr.
  pose proof (to_u8_range (Z.shiftr dest 8)) as Hg.
  pose proof (to_u8_range dest) as Hb.
  pose proof (to_uint8_range (F32.mul (F32.of_int 255) (red label))) as Hrs.
  pose proof (to_uint8_range (F32.mul (F32.of_int 255) (green label))) as Hgs.
  pose proof (to_uint8_range (F32.mul (F32.of_int 255) (blue label))) as Hbs.
  split; [|split; [|split]].
  - intros -> Hfin. unfold source_alpha.
    change (F32.div (F32.of_int 0) (F32.of_int 255)) with (S754_zero false).
    destruct (alpha label); try discriminate; reflexivity.
  - intros Hz.
    assert (Heq : blend label coverage dest = dest mod 2 ^ 24).
    { unfold blend.
      destruct (source_alpha label coverage) as [s| | |]; try discriminate.
      unfold color_byte.
      rewrite !mix_transparent by assumption.
      rewrite mul_zero_byte by lia.
      change (F32.to_uint8 (S754_zero s)) with 0.
      rewrite argb_bytes by (assumption || lia).
      rewrite <- low_bytes. lia. }
    split; [exact Heq|].
    intros Hd. rewrite Heq. split.
    + intros H. rewrite <- H. apply Z.mod_pos_bound. lia.
    + intros H. apply Z.mod_small. lia.
  - intros Ha ->. unfold blend, source_alpha. rewrite Ha.
    change (F32.mul F32.one (F32.div (F32.of_int 255) (F32.of_int 255)))
      with F32.one.
    unfold color_byte.
    rewrite !mix_opaque by assumption.
    change (F32.to_uint8 (F32.mul F32.one (F32.of_int 255))) with 255.
    rewrite argb_bytes by (assumption || lia). reflexivity.
  - unfold blend.
    set (a := source_alpha label coverage).
    set (ia := F32.sub F32.one a).
    pose proof (to_uint8_range (F32.mul a (F32.of_int 255))) as Had.
    unfold mix.
    match goal with
    | |- Z.shiftr (argb _ ?r ?g ?b) _ = _ =>
        pose proof (to_uint8_range
                      (F32.add (F32.mul ia (F32.of_int (to_u8 (Z.shiftr dest 16))))
                               (F32.mul a (F32.of_int (color_byte (red label)))))) as H1;
        pose proof (to_uint8_range
                      (F32.add (F32.mul ia (F32.of_int (to_u8 (Z.shiftr dest 8))))
                               (F32.mul a (F32.of_int (color_byte (green label)))))) as H2;
        pose proof (to_uint8_range
                      (F32.add (F32.mul ia (F32.of_int (to_u8 dest)))
                               (F32.mul a (F32.of_int (color_byte (blue label)))))) as H3
    end.
    rewrite argb_bytes by assumption.
    rewrite Z.shiftr_div_pow2 by lia.
    change (2 ^ 24) with 16777216. change (2 ^ 16) with 65536.
    change (2 ^ 8) with 256.
    Z.div_mod_to_equations. lia.
Qed.

Lemma blend_cases_witness :
  F32.is_finite (alpha Sample.yellow) = true
  /\ alpha Sample.yellow = F32.one
  /\ blend Sample.yellow 0 305419896 = 3430008
  /\ blend Sample.yellow 255 305419896 = 4294967040.
Proof.
  assert (Hf : F32.is_finite (alpha Sample.yellow) = true)
    by (vm_compute; reflexivity).
  assert (Ha : alpha Sample.yellow = F32.one) by (vm_compute; reflexivity).
  split; [exact Hf|]. split; [exact Ha|].
  destruct (blend_cases Sample.yellow 0 305419896) as (Hz & Ht & _).
  destruct (blend_cases Sample.yellow 255 305419896) as (_ & _ & Ho & _).
  split.
  - rewrite (proj1 (Ht (Hz eq_refl Hf))). reflexivity.
  - rewrite (Ho Ha eq_refl). vm_compute. reflexivity.
Defined.

(** * Further properties of the plugin *)

(** ** The life of a control *)

Section Lifecycle.

Variable ft : FreeType.

Lemma trigger_redraw_keeps budget label adjust label' calls :
  trigger_redraw ft budget label adjust = Done (label', calls) ->
  is_hidden label' = is_hidden label /\ display label' = display label.
Proof.
  unfold trigger_redraw. intros H.
  destruct (is_hidden label) eqn:Hh; [injection H as <- _; auto|].
  destruct (display label) as [d|] eqn:Hd; [|injection H as <- _; auto].
  destruct adjust; cbn [bind] in H.
  - destruct (size_control ft budget label) as [l| |] eqn:E; try discriminate.
    cbn [bind] in H. injection H as <- _.
    destruct (size_control_keeps ft _ _ _ E) as (A & B & _).
    split; congruence.
  - injection H as <- _. auto.
Qed.





(** The label that [show_control] measures is the label itself when that is
    already shown on the same display at the same place. *)
Lemma show_prepared_same label d x y :
  is_hidden label = false -> display label = d ->
  Rectangle.x (area label) = x -> Rectangle.y (area label) = y ->
  set_is_hidden false
    (set_area (Rectangle.make x y
                 (Rectangle.width (area (set_display d label)))
                 (Rectangle.height (area (set_display d label))))
              (set_display d label))
  = label.
Proof.
  destruct label as [d0 [ax ay aw ah] al w f t r g b a hid]. cbn.
  intros -> -> -> ->. reflexivity.
Qed.

End Lifecycle.

(** X1: a hidden label holds no display.  This is so for the control that
    [create_control] makes, and every operation of the interface that
    returns keeps it so. *)
Theorem detached_when_hidden_kept ft budget op label label' calls :
  detached_when_hidden label ->
  invoke ft budget op label = Done (label', calls) ->
  detached_when_hidden label'
  /\ (forall fresh, create_control ft = Some fresh -> detached_when_hidden fresh).
Proof.
  intros Hinv H. split.
  - assert (Hkeep : forall l adj,
               detached_when_hidden l ->
               trigger_redraw ft budget l adj = Done (label', calls) ->
               detached_when_hidden label').
    { intros l adj Hl Ht Hh.
      destruct (trigger_redraw_keeps ft _ _ _ _ _ Ht) as [A B].
      rewrite B. apply Hl. congruence. }
    destruct op as [d x y| |pb x y w h|t|a|w|fontdesc|r g b a]; cbn [invoke] in H.
    + destruct (show_control_result ft _ _ _ _ _ _ _ H) as (_ & Hh & _).
      intros Hc. congruence.
    + injection H as <- _. intros _. reflexivity.
    + destruct (draw_control ft budget label pb x y w h); try discriminate.
      cbn [bind] in H. now injection H as <- _.
    + unfold set_text_for_control in H.
      destruct (text label), t; try discriminate;
        try (eapply Hkeep; [|eassumption]; exact Hinv).
      now injection H as <- _.
    + unfold set_alignment_for_control in H.
      destruct (alignment_eqb (alignment label) a).
      * now injection H as <- _.
      * eapply Hkeep; [|eassumption]. exact Hinv.
    + unfold set_width_for_control in H.
      destruct (width label =? w).
      * now injection H as <- _.
      * eapply Hkeep; [|eassumption]. exact Hinv.
    + eapply Hkeep; [|exact H]. exact Hinv.
    + eapply Hkeep; [|exact H]. exact Hinv.
  - intros fresh. unfold create_control.
    destruct (size_granted ft _); [|discriminate].
    intros Hf. injection Hf as <-. intros _. reflexivity.
Qed.

Lemma detached_when_hidden_kept_witness :
  detached_when_hidden Sample.fresh
  /\ detached_when_hidden (set_text (Some "a"%string) Sample.fresh).
Proof.
  assert (H0 : detached_when_hidden Sample.fresh) by (intros _; reflexivity).
  split; [exact H0|].
  refine (proj1 (detached_when_hidden_kept Sample.ft 9 (Op_set_text (Some "a"%string))
                   Sample.fresh _ [] H0 _)).
  vm_compute. reflexivity.
Defined.

(** X2: on a hidden label every setter returns at once, whatever the budget
    and whatever the text, asks for no repaint and leaves the cached box and
    the visibility as they are; so does a draw. *)
Theorem hidden_setters_silent ft budget op label :
  is_hidden label = true ->
  is_setter op = true ->
  exists label',
    invoke ft budget op label = Done (label', [])
    /\ area label' = area label
    /\ is_hidden label' = true.
Proof.
  intros Hh Hs.
  destruct op as [d x y| |pb x y w h|[s|]|a|w|fontdesc|r g b a];
    try discriminate Hs; cbn [invoke].
  - unfold draw_control. rewrite Hh. cbn [bind]. eauto.
  - unfold set_text_for_control, trigger_redraw. cbn. rewrite Hh.
    destruct (text label); eauto.
  - unfold set_alignment_for_control, trigger_redraw. cbn. rewrite Hh.
    destruct (alignment_eqb (alignment label) a); eauto.
  - unfold set_width_for_control, trigger_redraw. cbn. rewrite Hh.
    destruct (width label =? w); eauto.
  - unfold set_font_for_control, trigger_redraw. cbn. rewrite Hh. eauto.
  - unfold set_color_for_control, trigger_redraw. cbn. rewrite Hh. eauto.
Qed.

Lemma hidden_setters_silent_witness :
  exists label',
    invoke Sample.ft 0 (Op_set_text (Some "a?b"%string)) Sample.fresh
    = Done (label', [])
    /\ area label' = area Sample.fresh
    /\ is_hidden label' = true.
Proof.
  apply (hidden_setters_silent Sample.ft 0 (Op_set_text (Some "a?b"%string))
           Sample.fresh); reflexivity.
Defined.





(** X5: showing a label again on the same display at the same place
    changes nothing of it, and asks for the repaint of the box it has. *)
Theorem show_control_again ft budget label d x y label' calls :
  show_control ft budget label d x y = Done (label', calls) ->
  show_control ft budget label' d x y
  = Done (label', match d with Some d' => [(d', area label')] | None => [] end).
Proof.
  intros H.
  destruct (show_control_result ft _ _ _ _ _ _ _ H)
    as (Hs & Hh & Hd & Hx & Hy & _).
  unfold show_control.
  rewrite (show_prepared_same label' d x y Hh Hd Hx Hy), Hs.
  cbn [bind]. rewrite Hh, Hd.
  rewrite <- Hh at 1. rewrite set_is_hidden_same.
  now destruct d.
Qed.

Lemma show_control_again_witness :
  show_control Sample.ft 64 (Sample.shown "aj" (Some 1%nat) 5 7) (Some 1%nat) 5 7
  = Done (Sample.shown "aj" (Some 1%nat) 5 7,
          [(1%nat, area (Sample.shown "aj" (Some 1%nat) 5 7))]).
Proof.
  assert (H : show_control Sample.ft 64 (Sample.titled "aj") (Some 1%nat) 5 7
              = Done (Sample.shown "aj" (Some 1%nat) 5 7,
                      [(1%nat, Rectangle.make 0 0 0 0)]))
    by (vm_compute; reflexivity).
  exact (show_control_again Sample.ft 64 (Sample.titled "aj") (Some 1%nat) 5 7
           _ _ H).
Defined.

(** X6: hiding a label that has just been shown asks the display it was
    shown on for the repaint of the box measured by the show, and leaves the
    label hidden, without display, with that box still cached; hiding it once
    more asks for nothing and changes nothing. *)
Theorem hide_after_show ft budget label d x y label' calls :
  show_control ft budget label d x y = Done (label', calls) ->
  hide_control label'
  = (set_display None (set_is_hidden true label'),
     match d with Some d' => [(d', area label')] | None => [] end)
  /\ get_width_of_control (fst (hide_control label')) = get_width_of_control label'
  /\ get_height_of_control (fst (hide_control label')) = get_height_of_control label'
  /\ hide_control (fst (hide_control label')) = (fst (hide_control label'), []).
Proof.
  intros H.
  destruct (show_control_result ft _ _ _ _ _ _ _ H) as (_ & _ & Hd & _).
  unfold hide_control. cbn. rewrite Hd.
  destruct d; repeat split.
Qed.

Lemma hide_after_show_witness :
  hide_control (Sample.shown "aj" (Some 1%nat) 5 7)
  = (set_display None (set_is_hidden true (Sample.shown "aj" (Some 1%nat) 5 7)),
     [(1%nat, area (Sample.shown "aj" (Some 1%nat) 5 7))]).
Proof.
  assert (H : show_control Sample.ft 64 (Sample.titled "aj") (Some 1%nat) 5 7
              = Done (Sample.shown "aj" (Some 1%nat) 5 7,
                      [(1%nat, Rectangle.make 0 0 0 0)]))
    by (vm_compute; reflexivity).
  exact (proj1 (hide_after_show Sample.ft 64 (Sample.titled "aj") (Some 1%nat) 5 7
                  _ _ H)).
Defined.

(** X7: a control that is shown before it was given any text gets an empty
    box at the place asked for, and the first draw that reaches it through
    the overlap test, on a target with rows, reads the text through a NULL
    pointer. *)
Theorem draw_before_text_undefined ft budget label d x y pixel_buffer cx cy cw ch :
  create_control ft = Some label ->
  (0 < budget)%nat ->
  exists label',
    show_control ft budget label d x y
    = Done (label',
            match d with Some d' => [(d', Rectangle.make 0 0 0 0)] | None => [] end)
    /\ area label' = Rectangle.make x y 0 0
    /\ (outside label' cx cy cw ch = false ->
        buf_height pixel_buffer <> 0 ->
        draw_control ft budget label' pixel_buffer cx cy cw ch = Undefined).
Proof.
  unfold create_control.
  destruct (size_granted ft _); [|discriminate].
  intros Hc Hb. injection Hc as <-.
  destruct budget as [|budget]; [lia|].
  eexists. split; [|split].
  - unfold show_control, size_control. cbn. destruct d; reflexivity.
  - reflexivity.
  - intros Ho Hh. unfold draw_control. cbn [is_hidden set_is_hidden].
    rewrite Ho. apply Z.eqb_neq in Hh. rewrite Hh. reflexivity.
Qed.

Lemma draw_before_text_undefined_witness :
  exists label',
    show_control Sample.ft 9 Sample.fresh (Some 1%nat) 5 7
    = Done (label', [(1%nat, Rectangle.make 0 0 0 0)])
    /\ draw_control Sample.ft 9 label' (Sample.blank 30 30) 0 0 30 30 = Undefined.
Proof.
  destruct (draw_before_text_undefined Sample.ft 9 Sample.fresh (Some 1%nat) 5 7
              (Sample.blank 30 30) 0 0 30 30 eq_refl) as (l & Hs & Ha & Hd).
  - lia.
  - exists l. split; [exact Hs|]. apply Hd.
    + unfold outside. rewrite Ha. vm_compute. reflexivity.
    + vm_compute. discriminate.
Defined.

(** ** More on measuring *)

Section Lines.

Variable ft : FreeType.

Lemma append_assoc (s t u : string) : ((s ++ t) ++ u)%string = (s ++ (t ++ u))%string.
Proof. induction s as [|c s IH]; simpl; congruence. Qed.

(** What follows the first newline plays no part in [width_of_line], be the
    budget enough or not, load the glyphs or not. *)
Lemma width_of_line_loop_first_line label rest budget :
  forall line width,
    newline_free line = true ->
    width_of_line_loop ft budget label (line ++ String newline rest) width
    = width_of_line_loop ft budget label line width.
Proof.
  induction budget as [|budget IH]; intros line width Hnl; [reflexivity|].
  destruct line as [|c line]; [reflexivity|].
  pose proof Hnl as Hnl'. simpl in Hnl'.
  apply andb_prop in Hnl' as [Hc Hnl']. apply negb_true_iff in Hc.
  cbn [append width_of_line_loop]. rewrite Hc.
  destruct (FT_Load_Char ft (face label) c).
  - now apply IH.
  - change (String c (line ++ String newline rest))
      with (String c line ++ String newline rest)%string.
    now apply IH.
Qed.

(** One round of the loop of [size_control] on an empty line. *)
Lemma size_control_loop_blank label rest budget w h :
  0 <= w ->
  size_control_loop ft (S budget) label (Some (String newline rest)) w h
  = size_control_loop ft budget label (Some rest) w
      (to_u64 (h + line_height_px ft label)).
Proof.
  intros Hw. cbn [size_control_loop]. unfold width_of_line.
  cbn [width_of_line_loop]. rewrite newline_eqb_refl. cbn [bind strchr].
  rewrite newline_eqb_refl.
  change (to_u32 0) with 0.
  destruct (Z.gtb_spec 0 w); [lia | reflexivity].
Qed.

(** The loop of [size_control] over lines with a newline after the last. *)
Lemma size_control_loop_lines_newline label lines :
  Forall (fits ft label) lines ->
  lines <> [] ->
  forall budget w h,
    (S (String.length (join_lines lines)) < budget)%nat ->
    0 <= w < 2 ^ 31 ->
    is_u64 h ->
    size_control_loop ft budget label
      (Some (join_lines lines ++ String newline EmptyString)%string) w h
    = Done (Z.max w (Design.widest ft (face label) lines),
            to_u64 (h + Z.of_nat (List.length lines) * line_height_px ft label)).
Proof.
  induction 1 as [|line lines Hfit Hrest IH]; intros Hne budget w h Hb Hw Hh;
    [congruence|].
  destruct budget as [|budget]; [lia|].
  pose proof (widest_range ft label lines Hrest) as Hwd.
  pose proof Hfit as (Hline & Hld & Hm).
  destruct lines as [|line2 lines].
  - cbn [join_lines] in *.
    rewrite size_control_loop_round by (eauto; lia).
    destruct budget as [|budget]; [lia|].
    cbn [size_control_loop List.length Design.widest map fold_right].
    f_equal. f_equal; [lia|]. f_equal. lia.
  - change (join_lines (line :: line2 :: lines))
      with (line ++ String newline (join_lines (line2 :: lines)))%string in *.
    rewrite length_append in Hb. cbn [String.length] in Hb.
    rewrite append_assoc.
    change (String newline (join_lines (line2 :: lines)) ++ String newline EmptyString)%string
      with (String newline (join_lines (line2 :: lines) ++ String newline EmptyString))%string.
    rewrite size_control_loop_round by (eauto; lia).
    rewrite IH by (auto using to_u64_range; try discriminate; lia).
    rewrite to_u64_add_l.
    f_equal. f_equal.
    + change (Design.widest ft (face label) (line :: line2 :: lines))
        with (Z.max (Design.measure_line ft (face label) line)
                    (Design.widest ft (face label) (line2 :: lines))).
      lia.
    + f_equal. cbn [List.length]. lia.
Qed.

(** The end of [size_control] once the loop has returned. *)
Lemma size_control_finish label budget w h :
  is_hidden label = false ->
  size_control_loop ft budget label (text label) 0 0 = Done (w, h) ->
  0 <= w < 2 ^ 31 ->
  width label < 2 ^ 63 ->
  exists l',
    size_control ft budget label = Done l'
    /\ Rectangle.width (area l') = Z.max w (width label)
    /\ Rectangle.height (area l') = h.
Proof.
  intros Hvis Hloop Hw Hmin. unfold size_control. rewrite Hvis, Hloop.
  cbn [bind]. eexists. split; [reflexivity|]. cbn.
  split; [|reflexivity].
  rewrite to_s64_id by (unfold is_s64; lia).
  destruct (Z.ltb_spec w (width label)).
  - rewrite to_u64_small by (unfold is_u64; lia). lia.
  - lia.
Qed.

End Lines.

(** X8: [width_of_line] measures the first line of what it is given: the
    characters after the first newline make no difference to its result,
    whatever the budget and whether or not glyphs load. *)
Theorem width_of_line_first_line ft budget label line rest :
  newline_free line = true ->
  width_of_line ft budget label (line ++ String newline rest)
  = width_of_line ft budget label line.
Proof.
  intros Hnl. unfold width_of_line.
  now apply width_of_line_loop_first_line.
Qed.

Lemma width_of_line_first_line_witness :
  width_of_line Sample.ft 9 Sample.fresh ("aj" ++ String newline "a?")
  = width_of_line Sample.ft 9 Sample.fresh "aj".
Proof.
  apply (width_of_line_first_line Sample.ft 9 Sample.fresh "aj" "a?").
  reflexivity.
Defined.

(** X9: a newline at the very end of the text adds no line: the box of N
    fitting lines followed by a newline is the box of the N lines, as wide as
    the widest of them or the least width and N line heights high, the height
    being reported as a [long]. *)
Theorem size_control_trailing_newline ft label lines budget :
  is_hidden label = false ->
  lines <> [] ->
  text label = Some (join_lines lines ++ String newline EmptyString)%string ->
  Forall (fits ft label) lines ->
  width label < 2 ^ 63 ->
  (S (String.length (join_lines lines)) < budget)%nat ->
  exists l',
    size_control ft budget label = Done l'
    /\ get_width_of_control l'
       = Z.max (Design.widest ft (face label) lines) (width label)
    /\ get_height_of_control l'
       = to_s64 (Z.of_nat (List.length lines) * line_height_px ft label).
Proof.
  intros Hvis Hne Htext Hfits Hmin Hb.
  pose proof (widest_range ft label lines Hfits) as Hwd.
  destruct (size_control_finish ft label budget
              (Z.max 0 (Design.widest ft (face label) lines))
              (to_u64 (0 + Z.of_nat (List.length lines) * line_height_px ft label)))
    as (l' & Hs & Hw & Hh); auto; try lia.
  - rewrite Htext.
    apply size_control_loop_lines_newline; auto; unfold is_u64; lia.
  - exists l'. split; [exact Hs|].
    apply getters_of_box; [| |assumption|assumption].
    + rewrite Hw. f_equal. lia.
    + rewrite Hh. reflexivity.
Qed.

Lemma size_control_trailing_newline_witness :
  exists l',
    size_control Sample.ft 9
      (set_text (Some (Sample.two_lines ++ String newline EmptyString)%string)
                (Sample.shown "a" (Some 1%nat) 3 4))
    = Done l'
    /\ get_width_of_control l' = 14
    /\ get_height_of_control l' = 32.
Proof.
  destruct (size_control_trailing_newline Sample.ft
              (set_text (Some (Sample.two_lines ++ String newline EmptyString)%string)
                        (Sample.shown "a" (Some 1%nat) 3 4))
              ["aj"%string; "a"%string] 9) as (l' & H & Hw & Hh).
  - vm_compute. reflexivity.
  - discriminate.
  - reflexivity.
  - repeat constructor; vm_compute; discriminate.
  - vm_compute. reflexivity.
  - vm_compute. lia.
  - exists l'. split; [exact H|]. split; [exact Hw | exact Hh].
Defined.

(** X10: an empty line at the head of the text counts as a line of no
    width: the box of a newline followed by N fitting lines is as wide as
    that of the N lines and one line height higher, the height being
    reported as a [long]. *)
Theorem size_control_blank_first_line ft label lines budget :
  is_hidden label = false ->
  text label = Some (String newline (join_lines lines)) ->
  Forall (fits ft label) lines ->
  width label < 2 ^ 63 ->
  (S (String.length (join_lines lines)) < budget)%nat ->
  exists l',
    size_control ft budget label = Done l'
    /\ get_width_of_control l'
       = Z.max (Design.widest ft (face label) lines) (width label)
    /\ get_height_of_control l'
       = to_s64 (Z.of_nat (S (List.length lines)) * line_height_px ft label).
Proof.
  intros Hvis Htext Hfits Hmin Hb.
  pose proof (widest_range ft label lines Hfits) as Hwd.
  destruct budget as [|budget]; [lia|].
  destruct (size_control_finish ft label (S budget)
              (Z.max 0 (Design.widest ft (face label) lines))
              (to_u64 (to_u64 (0 + line_height_px ft label)
                       + Z.of_nat (List.length lines) * line_height_px ft label)))
    as (l' & Hs & Hw & Hh); auto; try lia.
  - rewrite Htext, size_control_loop_blank by lia.
    apply size_control_loop_lines; auto using to_u64_range; lia.
  - exists l'. split; [exact Hs|].
    apply getters_of_box; [| |assumption|assumption].
    + rewrite Hw. f_equal. lia.
    + rewrite Hh, to_u64_add_l. f_equal. lia.
Qed.

Lemma size_control_blank_first_line_witness :
  exists l',
    size_control Sample.ft 9
      (set_text (Some (String newline Sample.two_lines))
                (Sample.shown "a" (Some 1%nat) 3 4))
    = Done l'
    /\ get_width_of_control l' = 14
    /\ get_height_of_control l' = 48.
Proof.
  destruct (size_control_blank_first_line Sample.ft
              (set_text (Some (String newline Sample.two_lines))
                        (Sample.shown "a" (Some 1%nat) 3 4))
              ["aj"%string; "a"%string] 9) as (l' & H & Hw & Hh).
  - vm_compute. reflexivity.
  - reflexivity.
  - repeat constructor; vm_compute; discriminate.
  - vm_compute. reflexivity.
  - vm_compute. lia.
  - exists l'. split; [exact H|]. split; [exact Hw | exact Hh].
Defined.

(** ** Reading a font description *)

Section Fonts.

Lemma strrchr_none c s : has_char c s = false -> strrchr s c = None.
Proof.
  induction s as [|a s IH]; simpl; [reflexivity|].
  intros H. apply orb_false_elim in H as [Ha Hs].
  now rewrite IH, Ha.
Qed.

(** The last space of a description is the one before a tail without
    spaces. *)
Lemma strrchr_last family tail :
  has_char space tail = false ->
  strrchr (family ++ String space tail) space = Some (String space tail).
Proof.
  intros H. induction family as [|a family IH]; simpl.
  - now rewrite (strrchr_none space tail H).
  - now rewrite IH.
Qed.

Lemma read_digits_app ds rest :
  all_digits ds = true ->
  no_digit_ahead rest = true ->
  forall acc count,
    read_digits (ds ++ rest) acc count
    = (decimal ds acc, (count + String.length ds)%nat, rest).
Proof.
  intros Hds Hrest. induction ds as [|c ds IH]; intros acc count.
  - simpl. rewrite Nat.add_0_r.
    destruct rest as [|c rest]; [reflexivity|].
    simpl in *. now destruct (digit_of c).
  - simpl in *. destruct (digit_of c); [|discriminate].
    rewrite IH by assumption. f_equal. f_equal. lia.
Qed.

(** [strtoul] on a string that starts with a digit. *)
Lemma strtoul_digit_head c tl :
  digit_of c <> None ->
  strtoul (String c tl)
  = let '(v, count, rest) := read_digits (String c tl) 0 0 in
    match count with
    | O => None
    | S _ => Some (if 2 ^ 64 <=? v then 2 ^ 64 - 1 else v, rest)
    end.
Proof.
  intros H.
  destruct c as [[|] [|] [|] [|] [|] [|] [|] [|]];
    try (exfalso; apply H; reflexivity); reflexivity.
Qed.

(** [strtoul] on a string that starts with neither blank, sign nor digit. *)
Lemma strtoul_no_number c tl :
  digit_of c = None -> isspace c = false ->
  c <> "-"%char -> c <> "+"%char ->
  strtoul (String c tl) = None.
Proof.
  intros Hd Hs Hm Hp.
  destruct c as [[|] [|] [|] [|] [|] [|] [|] [|]];
    try discriminate Hd; try discriminate Hs;
    try (exfalso; apply Hm; reflexivity);
    try (exfalso; apply Hp; reflexivity); reflexivity.
Qed.

End Fonts.

(** X11: the size of a font description is the decimal number that follows
    its last space, up to [ULONG_MAX]; it counts as pixels when exactly the
    two letters px follow the number and as points when anything else or
    nothing does.  A minus sign before the number is taken and negates it in
    an [unsigned long]. *)
Theorem font_size_of_number family c ds rest :
  all_digits (String c ds) = true ->
  no_digit_ahead rest = true ->
  has_char space (String c ds ++ rest) = false ->
  font_size_of (family ++ String space (String c ds ++ rest))
  = (if 2 ^ 64 <=? decimal (String c ds) 0 then 2 ^ 64 - 1
     else decimal (String c ds) 0,
     String.eqb rest "px")
  /\ font_size_of (family ++ String space (String "-" (String c ds ++ rest)))
     = (if 2 ^ 64 <=? decimal (String c ds) 0 then 2 ^ 64 - 1
        else to_u64 (- decimal (String c ds) 0),
        String.eqb rest "px").
Proof.
  intros Hds Hrest Hsp.
  assert (Hc : digit_of c <> None).
  { simpl in Hds. destruct (digit_of c); [discriminate | discriminate Hds]. }
  split.
  - unfold font_size_of. rewrite strrchr_last by assumption.
    change (strtoul (String space (String c ds ++ rest)))
      with (strtoul (String c ds ++ rest)).
    change (String c ds ++ rest)%string with (String c (ds ++ rest)).
    rewrite strtoul_digit_head by assumption.
    change (String c (ds ++ rest)) with (String c ds ++ rest)%string.
    rewrite read_digits_app by assumption. reflexivity.
  - unfold font_size_of.
    rewrite strrchr_last.
    2:{ change (has_char space (String "-" (String c ds ++ rest)))
          with (has_char space (String c ds ++ rest)). assumption. }
    change (strtoul (String space (String "-" (String c ds ++ rest))))
      with (let '(v, count, rest0) := read_digits (String c ds ++ rest) 0 0 in
            match count with
            | O => None
            | S _ => Some (if 2 ^ 64 <=? v then 2 ^ 64 - 1 else to_u64 (- v), rest0)
            end).
    rewrite read_digits_app by assumption. reflexivity.
Qed.

Lemma font_size_of_number_witness :
  font_size_of "DejaVu Sans Bold 18px" = (18, true)
  /\ font_size_of "DejaVu Sans Bold -18px" = (2 ^ 64 - 18, true).
Proof.
  exact (font_size_of_number "DejaVu Sans Bold" "1" "8" "px" eq_refl eq_refl eq_refl).
Defined.

(** X12: a font description gives the default of 25 points when it has no
    space at all, when nothing follows its last space, and when what follows
    its last space starts with something that is neither a digit, a sign nor
    white space. *)
Theorem font_size_of_default family c tail fontdesc :
  (has_char space fontdesc = false -> font_size_of fontdesc = (25, false))
  /\ font_size_of (family ++ String space EmptyString) = (25, false)
  /\ (has_char space (String c tail) = false ->
      digit_of c = None -> isspace c = false ->
      c <> "-"%char -> c <> "+"%char ->
      font_size_of (family ++ String space (String c tail)) = (25, false)).
Proof.
  split; [|split].
  - intros H. unfold font_size_of. now rewrite strrchr_none.
  - unfold font_size_of. now rewrite strrchr_last.
  - intros Hsp Hd Hs Hm Hp. unfold font_size_of.
    rewrite strrchr_last by assumption.
    change (strtoul (String space (String c tail))) with (strtoul (String c tail)).
    now rewrite strtoul_no_number.
Qed.

Lemma font_size_of_default_witness :
  font_size_of "Cantarell" = (25, false)
  /\ font_size_of "Cantarell Light" = (25, false).
Proof.
  destruct (font_size_of_default "Cantarell" "L" "ight" "Cantarell")
    as (H1 & _ & H3).
  split; [apply H1; reflexivity|].
  apply H3; try reflexivity; discriminate.
Defined.

(** ** More on blending *)

(** X13: the word that a blend stores is a 32-bit word and does not depend
    on the alpha byte, nor on anything above it, of the word it is stored
    over. *)
Theorem blend_ignores_destination_alpha label coverage dest :
  0 <= blend label coverage dest < 2 ^ 32
  /\ blend label coverage dest = blend label coverage (dest mod 2 ^ 24).
Proof.
  split.
  - unfold blend, argb, to_u32. apply Z.mod_pos_bound. lia.
  - unfold blend.
    assert (H16 : to_u8 (Z.shiftr (dest mod 2 ^ 24) 16) = to_u8 (Z.shiftr dest 16)).
    { unfold to_u8. rewrite !Z.shiftr_div_pow2 by lia.
      change (2 ^ 24) with 16777216. change (2 ^ 16) with 65536.
      change (2 ^ 8) with 256. Z.div_mod_to_equations. lia. }
    assert (H8 : to_u8 (Z.shiftr (dest mod 2 ^ 24) 8) = to_u8 (Z.shiftr dest 8)).
    { unfold to_u8. rewrite !Z.shiftr_div_pow2 by lia.
      change (2 ^ 24) with 16777216. change (2 ^ 8) with 256.
      Z.div_mod_to_equations. lia. }
    assert (H0 : to_u8 (dest mod 2 ^ 24) = to_u8 dest).
    { unfold to_u8. change (2 ^ 24) with 16777216. change (2 ^ 8) with 256.
      Z.div_mod_to_equations. lia. }
    now rewrite H16, H8, H0.
Qed.

(** ** What a draw stores *)

Section Stores.

Variable ft : FreeType.

Lemma replace_nth_length n v l : List.length (replace_nth n v l) = List.length l.
Proof.
  revert n. induction l as [|a l IH]; intros n; [now destruct n|].
  destruct n; simpl; [reflexivity | now rewrite IH].
Qed.

Lemma stored_only_refl inside t : stored_only inside t t.
Proof.
  repeat split. exists []. split; [reflexivity | constructor].
Qed.

Lemma stored_only_trans inside t1 t2 t3 :
  stored_only inside t1 t2 -> stored_only inside t2 t3 ->
  stored_only inside t1 t3.
Proof.
  intros (W1 & H1 & L1 & n1 & S1 & F1) (W2 & H2 & L2 & n2 & S2 & F2).
  repeat split; try congruence.
  exists (n2 ++ n1). split.
  - now rewrite S2, S1, app_assoc.
  - apply Forall_app. split; assumption.
Qed.

Lemma stored_only_store (inside : Z -> Prop) t i v :
  inside i -> stored_only inside t (store_pixel t i v).
Proof.
  intros Hi. repeat split; simpl.
  - apply replace_nth_length.
  - exists [(i, v)]. split; [reflexivity|]. repeat constructor. exact Hi.
Qed.

(** A row of a glyph stores at the indices it walks over, and at as many
    places as it is long. *)
Lemma draw_bitmap_row_stores (inside : Z -> Prop) label source y ys W n :
  forall x xs target,
    buf_width target = W ->
    (forall k, 0 <= k < Z.of_nat n -> inside (x + k + W * y)) ->
    stored_only inside target (draw_bitmap_row n label source x xs y ys target)
    /\ List.length (stores (draw_bitmap_row n label source x xs y ys target))
       = (n + List.length (stores target))%nat.
Proof.
  induction n as [|n IH]; intros x xs target HW Hin.
  - split; [apply stored_only_refl | reflexivity].
  - cbn [draw_bitmap_row].
    set (t1 := store_pixel target _ _).
    assert (H1 : stored_only inside target t1).
    { apply stored_only_store. rewrite HW.
      replace (x + W * y) with (x + 0 + W * y) by lia. apply Hin. lia. }
    destruct (IH (x + 1) (xs + 1) t1) as [IH1 IH2].
    + exact HW.
    + intros k Hk. replace (x + 1 + k) with (x + (k + 1)) by lia.
      apply Hin. lia.
    + split; [eapply stored_only_trans; eassumption|].
      rewrite IH2. subst t1. simpl. lia.
Qed.

Lemma draw_bitmap_rows_stores (inside : Z -> Prop) label source x_start x_end W n :
  forall y ys target,
    buf_width target = W ->
    (forall j k, 0 <= j < Z.of_nat n -> 0 <= k < Z.of_nat (Z.to_nat (x_end - x_start)) ->
                 inside (x_start + k + W * (y + j))) ->
    stored_only inside target
      (draw_bitmap_rows n label source x_start x_end y ys target)
    /\ List.length (stores (draw_bitmap_rows n label source x_start x_end y ys target))
       = (n * Z.to_nat (x_end - x_start) + List.length (stores target))%nat.
Proof.
  induction n as [|n IH]; intros y ys target HW Hin.
  - split; [apply stored_only_refl | reflexivity].
  - cbn [draw_bitmap_rows].
    destruct (draw_bitmap_row_stores inside label source y ys W
                (Z.to_nat (x_end - x_start)) x_start 0 target HW) as [R1 R2].
    { intros k Hk. replace y with (y + 0) by lia. apply Hin; lia. }
    set (t1 := draw_bitmap_row _ _ _ _ _ _ _ _) in *.
    destruct (IH (y + 1) (ys + 1) t1) as [IH1 IH2].
    + destruct R1 as (HW1 & _). congruence.
    + intros j k Hj Hk. replace (y + 1 + j) with (y + (j + 1)) by lia.
      apply Hin; lia.
    + split; [eapply stored_only_trans; eassumption|].
      rewrite IH2, R2. lia.
Qed.

(** Where a glyph whose corner is inside the target starts and ends. *)
Lemma clip_edge start extent side :
  0 <= side < 2 ^ 31 -> is_s32 start ->
  (to_u32 start >=? side) = false ->
  0 <= start < side
  /\ start <= to_s32 (Z.min (to_u32 (start + extent)) side) <= side
     \/ (0 <= start < side
         /\ to_s32 (Z.min (to_u32 (start + extent)) side) < start).
Proof.
  unfold is_s32, to_u32. intros Hside Hs Hguard.
  rewrite Z.geb_leb in Hguard. apply Z.leb_gt in Hguard.
  assert (Hstart : 0 <= start < side).
  { change (2 ^ 32) with 4294967296 in Hguard.
    change (2 ^ 31) with 2147483648 in *.
    Z.div_mod_to_equations. lia. }
  pose proof (Z.mod_pos_bound (start + extent) (2 ^ 32) ltac:(lia)) as Hm.
  rewrite to_s32_id by (unfold is_s32; lia).
  destruct (Z.le_gt_cases start (Z.min ((start + extent) mod 2 ^ 32) side)).
  - left. lia.
  - right. lia.
Qed.

(** [draw_bitmap] stores inside the target only. *)
Lemma draw_bitmap_within label target source x_start y_start :
  sound_buffer target -> is_s32 x_start -> is_s32 y_start ->
  stored_only (in_buffer target) target
    (draw_bitmap label target source x_start y_start).
Proof.
  intros (HW & HH & _) Hx Hy. unfold draw_bitmap.
  destruct (to_u32 x_start >=? buf_width target) eqn:Gx;
    [apply stored_only_refl|].
  destruct (to_u32 y_start >=? buf_height target) eqn:Gy;
    [apply stored_only_refl|].
  cbn [orb].
  set (x_end := to_s32 (Z.min (to_u32 (x_start + bm_width source)) (buf_width target))).
  set (y_end := to_s32 (Z.min (to_u32 (y_start + rows source)) (buf_height target))).
  pose proof (clip_edge x_start (bm_width source) _ HW Hx Gx) as Ex.
  pose proof (clip_edge y_start (rows source) _ HH Hy Gy) as Ey.
  fold x_end in Ex. fold y_end in Ey.
  apply (draw_bitmap_rows_stores (in_buffer target) label source x_start x_end
           (buf_width target)); [reflexivity|].
  intros j k Hj Hk. unfold in_buffer.
  rewrite Z2Nat.id in Hj, Hk by lia. nia.
Qed.

End Stores.

Section DrawnWithin.

Variable ft : FreeType.

Lemma sound_buffer_kept inside t t' :
  sound_buffer t -> stored_only inside t t' -> sound_buffer t'.
Proof.
  intros (HW & HH & HL) (W' & H' & L' & _).
  unfold sound_buffer. rewrite W', H', L'. auto.
Qed.

Lemma stored_only_in_buffer t0 t t' :
  stored_only (in_buffer t0) t0 t ->
  stored_only (in_buffer t) t t' ->
  stored_only (in_buffer t0) t0 t'.
Proof.
  intros H0 H1. eapply stored_only_trans; [exact H0|].
  destruct H0 as (W0 & H0' & _).
  destruct H1 as (W1 & H1' & L1 & new & S1 & F1).
  repeat split; auto. exists new. split; [exact S1|].
  eapply Forall_impl; [|exact F1].
  intros s. unfold in_buffer. now rewrite W0, H0'.
Qed.

(** The inner loop of [draw_control] stores inside the target only. *)
Lemma draw_line_within label t0 budget :
  forall cur_c pen_x pen_y target r,
    sound_buffer t0 ->
    stored_only (in_buffer t0) t0 target ->
    draw_line ft budget label cur_c pen_x pen_y target = Done r ->
    stored_only (in_buffer t0) t0 (snd r).
Proof.
  induction budget as [|budget IH]; intros cur_c pen_x pen_y target r Hs H0 H;
    [discriminate|].
  cbn [draw_line] in H.
  destruct cur_c as [|c rest]; [injection H as <-; exact H0|].
  destruct (Ascii.eqb c newline); [injection H as <-; exact H0|].
  destruct (FT_Load_Char ft (face label) c) as [slot|].
  - eapply IH; [exact Hs | | exact H].
    eapply stored_only_in_buffer; [exact H0|].
    apply draw_bitmap_within; try apply to_s32_range.
    eapply sound_buffer_kept; eassumption.
  - eapply IH; eassumption.
Qed.

(** So does the outer loop. *)
Lemma draw_lines_within label t0 budget :
  forall cur_c pen_y target t',
    sound_buffer t0 ->
    stored_only (in_buffer t0) t0 target ->
    draw_lines ft budget label cur_c pen_y target = Done t' ->
    stored_only (in_buffer t0) t0 t'.
Proof.
  induction budget as [|budget IH]; intros cur_c pen_y target t' Hs H0 H;
    [discriminate|].
  cbn [draw_lines] in H.
  destruct cur_c as [|c rest]; [injection H as <-; exact H0|].
  match type of H with
  | bind ?m _ = _ => destruct m as [pen_x| |]; try discriminate
  end.
  cbn [bind] in H.
  destruct (draw_line ft (S budget) label (String c rest) pen_x pen_y target)
    as [[[[cur' px] py] t1]| |] eqn:E; try discriminate.
  cbn [bind] in H.
  eapply IH; [exact Hs | | exact H].
  exact (draw_line_within label t0 _ _ _ _ _ _ Hs H0 E).
Qed.

(** Loops that return. *)
Lemma width_of_line_loop_returns label budget :
  forall s width,
    glyphs_load ft (face label) s = true ->
    (String.length s < budget)%nat ->
    exists r, width_of_line_loop ft budget label s width = Done r.
Proof.
  induction budget as [|budget IH]; intros s width Hg Hb; [lia|].
  cbn [width_of_line_loop].
  destruct s as [|c rest]; [eauto|].
  destruct (Ascii.eqb c newline) eqn:Ec; [eauto|].
  simpl in Hg, Hb. rewrite Ec in Hg. unfold FT_Load_Char.
  destruct (load_char ft (face label) c); [|discriminate].
  apply IH; [exact Hg | lia].
Qed.

Lemma draw_line_returns label budget :
  forall s pen_x pen_y target,
    glyphs_load ft (face label) s = true ->
    (String.length s < budget)%nat ->
    exists rest px py t',
      draw_line ft budget label s pen_x pen_y target = Done (rest, px, py, t')
      /\ (String.length rest <= String.length s)%nat
      /\ glyphs_load ft (face label) rest = true
      /\ (rest = EmptyString \/ exists r, rest = String newline r).
Proof.
  induction budget as [|budget IH]; intros s pen_x pen_y target Hg Hb; [lia|].
  cbn [draw_line].
  destruct s as [|c rest].
  - exists EmptyString, pen_x, pen_y, target. auto.
  - destruct (Ascii.eqb c newline) eqn:Ec.
    + exists (String c rest), pen_x, pen_y, target.
      repeat split; auto. right. exists rest.
      apply Ascii.eqb_eq in Ec. now subst.
    + simpl in Hg, Hb. rewrite Ec in Hg. unfold FT_Load_Char.
      destruct (load_char ft (face label) c) as [slot|]; [|discriminate].
      edestruct (IH rest) as (r & px & py & t' & E & Hl & Hg' & Hr);
        [exact Hg | lia | ].
      rewrite E. exists r, px, py, t'. repeat split; auto. simpl. lia.
Qed.

Lemma draw_lines_returns label budget :
  forall s pen_y target,
    glyphs_load ft (face label) s = true ->
    (String.length s < budget)%nat ->
    exists t', draw_lines ft budget label s pen_y target = Done t'.
Proof.
  induction budget as [|budget IH]; intros s pen_y target Hg Hb; [lia|].
  cbn [draw_lines].
  destruct s as [|c rest]; [eauto|].
  destruct (width_of_line_loop_returns label (S budget) (String c rest) 0 Hg Hb)
    as [w Hw].
  unfold width_of_line. rewrite Hw.
  assert (Hpen : exists pen_x,
             match alignment label with
             | PLY_LABEL_ALIGN_LEFT =>
                 Done (to_s64 (Z.shiftl (Rectangle.x (area label)) 6))
             | PLY_LABEL_ALIGN_CENTER =>
                 bind (Done w)
                   (fun w0 => Done (to_s64 (to_s64 (Z.shiftl (Rectangle.x (area label)) 6)
                                + to_u64 (Z.shiftl (to_u64 (Rectangle.width (area label) - w0)) 5))))
             | PLY_LABEL_ALIGN_RIGHT =>
                 bind (Done w)
                   (fun w0 => Done (to_s64 (to_s64 (Z.shiftl (Rectangle.x (area label)) 6)
                                + to_u64 (Z.shiftl (to_u64 (Rectangle.width (area label) - w0)) 6))))
             end = Done pen_x).
  { destruct (alignment label); cbn [bind]; eauto. }
  destruct Hpen as [pen_x Hpen]. rewrite Hpen. cbn [bind].
  destruct (draw_line_returns label (S budget) (String c rest) pen_x pen_y target Hg Hb)
    as (r & px & py & t1 & E & Hl & Hg' & Hr).
  rewrite E. cbn [bind].
  apply IH.
  - destruct Hr as [-> | [r' ->]]; [reflexivity|].
    simpl in Hg'. exact Hg'.
  - destruct Hr as [-> | [r' ->]]; simpl in *; lia.
Qed.

End DrawnWithin.

(** X14: whenever a draw returns, every word it has stored lies inside the
    target, and the target has the sides and the number of words it had:
    [draw_control] writes nowhere but into the buffer it is given, whatever
    the glyphs and wherever the label is. *)
Theorem draw_control_within ft budget label pixel_buffer x y w h pixel_buffer' :
  sound_buffer pixel_buffer ->
  draw_control ft budget label pixel_buffer x y w h = Done pixel_buffer' ->
  sound_buffer pixel_buffer'
  /\ stored_only (in_buffer pixel_buffer) pixel_buffer pixel_buffer'.
Proof.
  intros Hs H.
  assert (Hin : stored_only (in_buffer pixel_buffer) pixel_buffer pixel_buffer').
  { unfold draw_control in H.
    destruct (is_hidden label); [injection H as <-; apply stored_only_refl|].
    destruct (outside label x y w h); [injection H as <-; apply stored_only_refl|].
    destruct (buf_height pixel_buffer =? 0);
      [injection H as <-; apply stored_only_refl|].
    destruct (text label) as [cur_c|]; [|discriminate].
    eapply draw_lines_within; [exact Hs | apply stored_only_refl | exact H]. }
  split; [eapply sound_buffer_kept; eassumption | exact Hin].
Qed.

Lemma draw_control_within_witness :
  sound_buffer (Sample.blank 30 30)
  /\ exists t',
      draw_control Sample.ft 9 Sample.yellow (Sample.blank 30 30) 0 0 30 30 = Done t'
      /\ stored_only (in_buffer (Sample.blank 30 30)) (Sample.blank 30 30) t'.
Proof.
  assert (Hs : sound_buffer (Sample.blank 30 30)).
  { unfold sound_buffer. vm_compute. intuition discriminate. }
  split; [exact Hs|].
  assert (Hrun : exists t',
             draw_control Sample.ft 9 Sample.yellow (Sample.blank 30 30) 0 0 30 30
             = Done t').
  { eexists. vm_compute. reflexivity. }
  destruct Hrun as [t' Hrun]. exists t'. split; [exact Hrun|].
  exact (proj2 (draw_control_within Sample.ft 9 Sample.yellow (Sample.blank 30 30)
                  0 0 30 30 t' Hs Hrun)).
Defined.

(** X15: a draw returns as soon as every character of the text other than
    the newline loads and the budget is larger than the length of the text,
    whatever the alignment, the place and the target. *)
Theorem draw_control_returns ft budget label pixel_buffer x y w h s :
  text label = Some s ->
  glyphs_load ft (face label) s = true ->
  (String.length s < budget)%nat ->
  exists pixel_buffer',
    draw_control ft budget label pixel_buffer x y w h = Done pixel_buffer'.
Proof.
  intros Ht Hg Hb. unfold draw_control.
  destruct (is_hidden label); [eauto|].
  destruct (outside label x y w h); [eauto|].
  destruct (buf_height pixel_buffer =? 0); [eauto|].
  rewrite Ht. now apply draw_lines_returns.
Qed.

Lemma draw_control_returns_witness :
  exists t',
    draw_control Sample.ft 9
      (set_alignment PLY_LABEL_ALIGN_CENTER
         (set_text (Some Sample.two_lines) Sample.yellow))
      (Sample.blank 30 30) 0 0 30 30 = Done t'.
Proof.
  apply (draw_control_returns Sample.ft 9 _ (Sample.blank 30 30) 0 0 30 30
           Sample.two_lines).
  - reflexivity.
  - vm_compute. reflexivity.
  - vm_compute. lia.
Defined.

(** X16: a glyph whose upper left corner lies outside the target, be it to
    the left of it, above it, or past its right or lower edge, is not drawn
    at all, not even the part of it that would fall inside. *)
Theorem draw_bitmap_off_corner label target source x_start y_start :
  sound_buffer target ->
  is_s32 x_start -> is_s32 y_start ->
  x_start < 0 \/ y_start < 0
  \/ buf_width target <= x_start \/ buf_height target <= y_start ->
  draw_bitmap label target source x_start y_start = target.
Proof.
  unfold sound_buffer, is_s32. intros (HW & HH & _) Hx Hy Hout.
  unfold draw_bitmap.
  assert (G : (to_u32 x_start >=? buf_width target)
              || (to_u32 y_start >=? buf_height target) = true).
  { apply orb_true_iff. rewrite !Z.geb_leb, !Z.leb_le. unfold to_u32.
    change (2 ^ 32) with 4294967296. change (2 ^ 31) with 2147483648 in *.
    Z.div_mod_to_equations. lia. }
  now rewrite G.
Qed.

Lemma draw_bitmap_off_corner_witness :
  draw_bitmap Sample.yellow (Sample.blank 30 30) Sample.dot (-1) 5
  = Sample.blank 30 30.
Proof.
  apply draw_bitmap_off_corner.
  - unfold sound_buffer. vm_compute. intuition discriminate.
  - unfold is_s32. lia.
  - unfold is_s32. lia.
  - left. lia.
Defined.

(** X17: a glyph whose upper left corner lies inside the target is cut at
    the right and at the lower edge: it stores one word for each of its
    pixels that falls inside, min (width, room to the right) times
    min (rows, room below) of them, and none elsewhere. *)
Theorem draw_bitmap_clipped label target source x_start y_start :
  sound_buffer target ->
  0 <= x_start < buf_width target ->
  0 <= y_start < buf_height target ->
  0 <= bm_width source -> 0 <= rows source ->
  x_start + bm_width source < 2 ^ 32 ->
  y_start + rows source < 2 ^ 32 ->
  stored_only (in_buffer target) target
    (draw_bitmap label target source x_start y_start)
  /\ List.length (stores (draw_bitmap label target source x_start y_start))
     = (Z.to_nat (Z.min (rows source) (buf_height target - y_start))
        * Z.to_nat (Z.min (bm_width source) (buf_width target - x_start))
        + List.length (stores target))%nat.
Proof.
  intros Hs Hx Hy Hbw Hrows Hxs Hys.
  pose proof Hs as (HW & HH & _).
  split.
  - apply draw_bitmap_within; auto; unfold is_s32; lia.
  - unfold draw_bitmap.
    rewrite (to_u32_small x_start), (to_u32_small y_start) by lia.
    rewrite (to_u32_small (x_start + bm_width source)) by lia.
    rewrite (to_u32_small (y_start + rows source)) by lia.
    destruct (Z.geb_spec x_start (buf_width target)); [lia|].
    destruct (Z.geb_spec y_start (buf_height target)); [lia|].
    cbn [orb].
    rewrite !to_s32_id by (unfold is_s32; lia).
    destruct (draw_bitmap_rows_stores (fun _ => True) label source x_start
                (Z.min (x_start + bm_width source) (buf_width target))
                (buf_width target)
                (Z.to_nat (Z.min (y_start + rows source) (buf_height target) - y_start))
                y_start 0 target eq_refl) as [_ Hlen]; [trivial|].
    rewrite Hlen. f_equal. f_equal; f_equal; lia.
Qed.

Lemma draw_bitmap_clipped_witness :
  List.length (stores (draw_bitmap Sample.yellow (Sample.blank 30 30)
                         {| rows := 4; bm_width := 5; pitch := 5;
                            buffer := repeat 255 20 |} 28 27))
  = 6%nat.
Proof.
  refine (proj2 (draw_bitmap_clipped Sample.yellow (Sample.blank 30 30)
                   {| rows := 4; bm_width := 5; pitch := 5;
                      buffer := repeat 255 20 |} 28 27 _ _ _ _ _ _ _)).
  - unfold sound_buffer. vm_compute. intuition discriminate.
  - vm_compute. intuition discriminate.
  - vm_compute. intuition discriminate.
  - vm_compute. discriminate.
  - vm_compute. discriminate.
  - vm_compute. reflexivity.
  - vm_compute. reflexivity.
Defined.

(** X18: a setter that returns has asked for at most one repaint, and then
    for that of the box the label had when the setter was called, on the
    display the visible label is shown on. *)
Theorem setters_repaint_entry_box ft budget op label label' calls :
  is_setter op = true ->
  invoke ft budget op label = Done (label', calls) ->
  calls = []
  \/ exists d, is_hidden label = false /\ display label = Some d
               /\ calls = [(d, area label)].
Proof.
  intros Hs H.
  assert (Ht : forall l adj,
             area l = area label -> is_hidden l = is_hidden label ->
             display l = display label ->
             trigger_redraw ft budget l adj = Done (label', calls) ->
             calls = []
             \/ exists d, is_hidden label = false /\ display label = Some d
                          /\ calls = [(d, area label)]).
  { intros l adj Ha Hh Hd Hr.
    apply trigger_redraw_calls in Hr. rewrite Ha, Hh, Hd in Hr.
    destruct (is_hidden label); [now left|].
    destruct (display label) as [d|]; [|now left].
    right. exists d. auto. }
  destruct op as [d x y| |pb x y w h|[s|]|a|w|fontdesc|r g b a];
    try discriminate Hs; cbn [invoke] in H.
  - destruct (draw_control ft budget label pb x y w h); try discriminate.
    cbn [bind] in H. injection H as _ <-. now left.
  - unfold set_text_for_control in H.
    destruct (text label); eapply Ht; try exact H; reflexivity.
  - unfold set_alignment_for_control in H.
    destruct (alignment_eqb (alignment label) a).
    + injection H as _ <-. now left.
    + eapply Ht; try exact H; reflexivity.
  - unfold set_width_for_control in H.
    destruct (width label =? w).
    + injection H as _ <-. now left.
    + eapply Ht; try exact H; reflexivity.
  - eapply Ht; try exact H; reflexivity.
  - eapply Ht; try exact H; reflexivity.
Qed.

Lemma setters_repaint_entry_box_witness :
  invoke Sample.ft 9 (Op_set_text (Some "aja"%string))
         (Sample.shown "aj" (Some 1%nat) 5 7)
  = Done (set_area (Rectangle.make 5 7 22 16)
            (set_text (Some "aja"%string) (Sample.shown "aj" (Some 1%nat) 5 7)),
          [(1%nat, Rectangle.make 5 7 14 16)])
  /\ ([(1%nat, Rectangle.make 5 7 14 16)] = []
      \/ exists d, is_hidden (Sample.shown "aj" (Some 1%nat) 5 7) = false
                   /\ display (Sample.shown "aj" (Some 1%nat) 5 7) = Some d
                   /\ [(1%nat, Rectangle.make 5 7 14 16)]
                      = [(d, area (Sample.shown "aj" (Some 1%nat) 5 7))]).
Proof.
  assert (Hrun : invoke Sample.ft 9 (Op_set_text (Some "aja"%string))
                        (Sample.shown "aj" (Some 1%nat) 5 7)
                 = Done (set_area (Rectangle.make 5 7 22 16)
                           (set_text (Some "aja"%string)
                              (Sample.shown "aj" (Some 1%nat) 5 7)),
                         [(1%nat, Rectangle.make 5 7 14 16)]))
    by (vm_compute; reflexivity).
  split; [exact Hrun|].
  exact (setters_repaint_entry_box Sample.ft 9 (Op_set_text (Some "aja"%string))
           (Sample.shown "aj" (Some 1%nat) 5 7) _ _ eq_refl Hrun).
Defined.
